(** * woocode: the local Qwen model server (local-models/qwen_server.py)

    A shallow embedding of the server's prompt formatter, model loader and
    [/generate] handler, and the properties of its specification.

    Python values are modelled as follows.
    - [str] is a sequence of Unicode code points: [pystr := list N].  Slicing
      and [len] count code points, as in Python.
    - [int] is [Z] (unbounded).
    - [dict] with string keys is stdpp's [gmap string].
    - the calls into torch, transformers and the operating system are
      oracles of a [Runtime]; a run returns, with its result, the log of the
      calls it made, and each call either returns or raises an exception,
      which an [except] clause catches or not by its class.
    - [logger] calls have no effect on the results and are left out. *)

From Stdlib Require Import ZArith NArith Ascii String List Lia.
From stdpp Require Import base decidable option list strings gmap.

Import ListNotations.
Local Open Scope list_scope.

(** ** Python strings *)

Definition pystr : Type := list N.

(** An ASCII literal as a Python string. *)
Definition py (s : string) : pystr :=
  map (fun a => N_of_ascii a) (list_ascii_of_string s).

Arguments py : simpl never.

(** The line feed ["\n"]. *)
Definition nl : pystr := [10%N].

(** [s.startswith(p)] *)
Fixpoint startswith (p s : pystr) : bool :=
  match p, s with
  | [], _ => true
  | _ :: _, [] => false
  | a :: p', b :: s' => if N.eqb a b then startswith p' s' else false
  end.

(** [sub in s]: [sub] occurs somewhere in [s]. *)
Fixpoint contains (sub s : pystr) : bool :=
  startswith sub s ||
  match s with
  | [] => false
  | _ :: s' => contains sub s'
  end.

(** [s[n:]] for [0 <= n] *)
Definition slice_from (n : nat) (s : pystr) : pystr := drop n s.

(** The scan of [str.replace] for a non-empty [old]: left to right, each
    occurrence found is replaced by [new] and the scan resumes after it
    ([skip] counts the characters of the occurrence still to pass). *)
Fixpoint replace_scan (old new : pystr) (skip : nat) (s : pystr) : pystr :=
  match s with
  | [] => []
  | c :: s' =>
      match skip with
      | S k => replace_scan old new k s'
      | O =>
          if startswith old s
          then new ++ replace_scan old new (length old - 1) s'
          else c :: replace_scan old new 0 s'
      end
  end.

(** [s.replace(old, new)] (all occurrences).  For an empty [old] Python puts
    [new] before every character and at the end. *)
Definition replace (s old new : pystr) : pystr :=
  match old with
  | [] => new ++ flat_map (fun c => c :: new) s
  | _ :: _ => replace_scan old new 0 s
  end.

(** [Py_UNICODE_ISSPACE]: the characters [str.strip()] removes. *)
Definition isspace (c : N) : bool :=
  ((9 <=? c) && (c <=? 13) || (28 <=? c) && (c <=? 32)
   || (c =? 133) || (c =? 160) || (c =? 5760)
   || (8192 <=? c) && (c <=? 8202)
   || (c =? 8232) || (c =? 8233) || (c =? 8239) || (c =? 8287)
   || (c =? 12288))%N.

Fixpoint drop_while (f : N -> bool) (s : pystr) : pystr :=
  match s with
  | [] => []
  | c :: s' => if f c then drop_while f s' else s
  end.

Definition lstrip (s : pystr) : pystr := drop_while isspace s.
Definition rstrip (s : pystr) : pystr := rev (drop_while isspace (rev s)).

(** [s.strip()] *)
Definition strip (s : pystr) : pystr := rstrip (lstrip s).

(** ** Request and response models *)

(** [class Message(BaseModel)] *)
Record Message := { role : pystr; content : pystr }.

(** [format_messages]: the loop appends to [formatted]; a role that is none
    of the three leaves it unchanged. *)
Definition format_step (formatted : pystr) (message : Message) : pystr :=
  if bool_decide (role message = py "system") then
    formatted ++ (py "<|im_start|>system" ++ nl ++ content message
                  ++ py "<|im_end|>" ++ nl)
  else if bool_decide (role message = py "user") then
    formatted ++ (py "<|im_start|>user" ++ nl ++ content message
                  ++ py "<|im_end|>" ++ nl)
  else if bool_decide (role message = py "assistant") then
    formatted ++ (py "<|im_start|>assistant" ++ nl ++ content message
                  ++ py "<|im_end|>" ++ nl)
  else formatted.

Definition format_messages (messages : list Message) : pystr :=
  fold_left format_step messages [] ++ (py "<|im_start|>assistant" ++ nl).

(** [class GenerateRequest(BaseModel)]; [F] is the type of Python floats,
    which the server only passes on.  [Optional] fields may hold [None]. *)
Record GenerateRequest (F : Type) := {
  messages : list Message;
  max_tokens : option Z;
  temperature : option F;
  top_p : option F;
  top_k : option Z;
  stream : option bool
}.
Arguments messages {F}.
Arguments max_tokens {F}.
Arguments temperature {F}.
Arguments top_p {F}.
Arguments top_k {F}.
Arguments stream {F}.

(** [class GenerateResponse(BaseModel)]; [usage] is a [Dict[str, int]]. *)
Record GenerateResponse := {
  resp_content : pystr;
  usage : gmap string Z
}.

(** ** Exceptions *)

(** The class of an exception, as far as the [except] clauses of the
    program tell classes apart.  [ImportError] is a subclass of
    [Exception]; [BaseException] stands for the exceptions that are not
    instances of [Exception]: [KeyboardInterrupt], [SystemExit],
    [asyncio.CancelledError]. *)
Inductive ExnClass := ImportError | Exception | BaseException.

(** An exception raised by a library call: what the program observes of it
    is its class and [str(e)]. *)
Record Exn := { exn_class : ExnClass; exn_str : pystr }.

(** [isinstance(e, ImportError)] *)
Definition exn_is_ImportError (e : Exn) : bool :=
  match exn_class e with
  | ImportError => true
  | Exception | BaseException => false
  end.

(** [isinstance(e, Exception)] *)
Definition exn_is_Exception (e : Exn) : bool :=
  match exn_class e with
  | ImportError | Exception => true
  | BaseException => false
  end.

(** [fastapi.HTTPException(status_code=..., detail=...)], which the framework
    turns into the response of the request. *)
Record HTTPException := { status_code : Z; detail : pystr }.

(** What leaves the [/generate] handler when it does not return: the
    [HTTPException] it raised, or an exception of a library call that its
    [except Exception] clause does not catch. *)
Inductive Raised :=
| HTTP (h : HTTPException)
| Escaped (e : Exn).

(** ** Arguments of the library calls *)

Inductive dtype := float16 | float32.

(** [BitsAndBytesConfig(...)] *)
Record BitsAndBytesConfig := {
  load_in_4bit : bool;
  bnb_4bit_compute_dtype : dtype;
  bnb_4bit_use_double_quant : bool;
  bnb_4bit_quant_type : pystr
}.

(** Keyword arguments of [AutoTokenizer.from_pretrained]. *)
Record TokenizerArgs := {
  ta_name : pystr;
  ta_trust_remote_code : bool;
  ta_cache_dir : pystr
}.

(** Keyword arguments of [AutoModelForCausalLM.from_pretrained]; [None] is
    a keyword that is not passed, or passed as [None]. *)
Record ModelArgs := {
  ma_name : pystr;
  ma_quantization_config : option BitsAndBytesConfig;
  ma_device_map : option pystr;
  ma_trust_remote_code : bool;
  ma_cache_dir : pystr;
  ma_torch_dtype : dtype;
  ma_low_cpu_mem_usage : option bool;
  ma_offload_folder : option pystr;
  ma_offload_state_dict : option bool
}.

(** [GenerationConfig(...)] *)
Record GenerationConfig (F : Type) := {
  max_new_tokens : option Z;
  gc_temperature : option F;
  gc_top_p : option F;
  gc_top_k : option Z;
  do_sample : bool;
  gc_pad_token_id : option Z;
  gc_eos_token_id : option Z
}.
Arguments max_new_tokens {F}.
Arguments gc_temperature {F}.
Arguments gc_top_p {F}.
Arguments gc_top_k {F}.
Arguments do_sample {F}.
Arguments gc_pad_token_id {F}.
Arguments gc_eos_token_id {F}.

(** ** The runtime the server runs on *)

(** A library call: it reads and changes the world outside the program
    (disk cache, model hub, accelerator memory, sampling state) and either
    returns or raises. *)
Definition oracle (W A : Type) : Type := W -> (Exn + A) * W.

(** torch, transformers and the operating system, as far as the server uses
    them.  A PyTorch batch of token ids is a list of rows of ids. *)
Class Runtime (F : Type) := {
  World : Type;
  Model : Type;
  Tokenizer : Type;
  BatchEncoding : Type;
  (* truth value of the objects, as [not model] tests it *)
  model_bool : Model -> bool;
  tokenizer_bool : Tokenizer -> bool;
  (* torch.cuda.is_available() *)
  cuda_is_available : bool;
  (* os.path.expanduser, os.path.join *)
  expanduser : pystr -> pystr;
  path_join : pystr -> pystr -> pystr;
  (* os.makedirs(path, exist_ok=True) *)
  makedirs : pystr -> oracle World unit;
  (* torch.cuda.get_device_name() *)
  cuda_get_device_name : oracle World pystr;
  (* import bitsandbytes *)
  import_bitsandbytes : oracle World unit;
  tokenizer_from_pretrained : TokenizerArgs -> oracle World Tokenizer;
  model_from_pretrained : ModelArgs -> oracle World Model;
  (* model.to(device) *)
  model_to : Model -> pystr -> oracle World Model;
  (* tokenizer(text, return_tensors="pt", truncation=True, max_length=n) *)
  tokenizer_call : Tokenizer -> pystr -> Z -> oracle World BatchEncoding;
  (* inputs.to(device) *)
  encoding_to : BatchEncoding -> pystr -> oracle World BatchEncoding;
  (* inputs.input_ids *)
  input_ids : BatchEncoding -> list (list Z);
  pad_token_id : Tokenizer -> option Z;
  eos_token_id : Tokenizer -> option Z;
  (* GenerationConfig(...), which checks its arguments *)
  generation_config_init : GenerationConfig F -> oracle World unit;
  (* model.generate of the inputs with generation_config=cfg *)
  model_generate :
    Model -> BatchEncoding -> GenerationConfig F -> oracle World (list (list Z));
  (* tokenizer.decode(ids, skip_special_tokens=b) *)
  tokenizer_decode : Tokenizer -> list Z -> bool -> oracle World pystr;
  (* the text of the IndexError of [t[0]] on an empty batch *)
  index_error_str : pystr
}.

(** The library calls, as they appear in the log of a run. *)
Inductive Event (F : Type) :=
| Ev_makedirs (path : pystr)
| Ev_get_device_name
| Ev_import_bitsandbytes
| Ev_tokenizer_from_pretrained (a : TokenizerArgs)
| Ev_model_from_pretrained (a : ModelArgs)
| Ev_model_to (device : pystr)
| Ev_tokenize (text : pystr) (max_length : Z)
| Ev_inputs_to (device : pystr)
| Ev_generation_config (cfg : GenerationConfig F)
| Ev_generate (cfg : GenerationConfig F)
| Ev_decode (ids : list Z) (skip_special_tokens : bool).
Arguments Ev_makedirs {F}.
Arguments Ev_get_device_name {F}.
Arguments Ev_import_bitsandbytes {F}.
Arguments Ev_tokenizer_from_pretrained {F}.
Arguments Ev_model_from_pretrained {F}.
Arguments Ev_model_to {F}.
Arguments Ev_tokenize {F}.
Arguments Ev_inputs_to {F}.
Arguments Ev_generation_config {F}.
Arguments Ev_generate {F}.
Arguments Ev_decode {F}.

(** A log entry: the call, and the exception it raised if it did. *)
Record Call (F : Type) := { call_event : Event F; call_raised : option Exn }.
Arguments call_event {F}.
Arguments call_raised {F}.
Arguments Build_Call {F}.

Section Server.
Context {F : Type} {RT : Runtime F}.

(** The process: the two module globals and the world around it. *)
Record State := {
  model : option Model;
  tokenizer : option Tokenizer;
  world : World
}.

(** A computation that may raise an [E]: from a state to the result, the
    state after it and the library calls it made, in order.  What was
    done before an exception stays done. *)
Definition M (E A : Type) : Type := State -> (E + A) * State * list (Call F).

Definition ret {E A} (a : A) : M E A := fun st => (inr a, st, []).

Definition raise {E A} (e : E) : M E A := fun st => (inl e, st, []).

Definition bind {E A B} (c : M E A) (k : A -> M E B) : M E B :=
  fun st =>
    match c st with
    | (inl e, st1, l1) => (inl e, st1, l1)
    | (inr a, st1, l1) =>
        match k a st1 with
        | (r, st2, l2) => (r, st2, l1 ++ l2)
        end
    end.

(** [try: body except C as e: handler e], where [catches e] is
    [isinstance(e, C)].  An exception of the body that the clause does not
    catch leaves the statement as it is ([escape] only places it among the
    exceptions of the context). *)
Definition try_except {E' A} (catches : Exn -> bool) (escape : Exn -> E')
    (body : M Exn A) (handler : Exn -> M E' A) : M E' A :=
  fun st =>
    match body st with
    | (inr a, st1, l1) => (inr a, st1, l1)
    | (inl e, st1, l1) =>
        if catches e then
          match handler e st1 with
          | (r, st2, l2) => (r, st2, l1 ++ l2)
          end
        else (inl (escape e), st1, l1)
    end.

(** A library call, logged. *)
Definition call {A} (ev : Event F) (o : oracle World A) : M Exn A :=
  fun st =>
    match o (world st) with
    | (inl e, w) =>
        (inl e, {| model := model st; tokenizer := tokenizer st; world := w |},
         [Build_Call ev (Some e)])
    | (inr a, w) =>
        (inr a, {| model := model st; tokenizer := tokenizer st; world := w |},
         [Build_Call ev None])
    end.

Definition get {E} : M E State := fun st => (inr st, st, []).

(** [global model; model = m] *)
Definition set_model {E} (m : Model) : M E unit :=
  fun st =>
    (inr tt, {| model := Some m; tokenizer := tokenizer st; world := world st |}, []).

Definition set_tokenizer {E} (t : Tokenizer) : M E unit :=
  fun st =>
    (inr tt, {| model := model st; tokenizer := Some t; world := world st |}, []).

(** The [IndexError] of [t[0]] on an empty batch; [IndexError] is a
    subclass of [Exception]. *)
Definition index_error : Exn :=
  {| exn_class := Exception; exn_str := index_error_str |}.

(** [t[0]] on a batch *)
Definition index0 {A} (t : list A) : M Exn A :=
  match t with
  | [] => raise index_error
  | x :: _ => ret x
  end.
End Server.

Notation "x <- c1 ;; c2" := (bind c1 (fun x => c2))
  (at level 100, c1 at next level, right associativity).
Notation "c1 ;;; c2" := (bind c1 (fun _ => c2))
  (at level 100, right associativity).

(** ** The server *)

Section Program.
Context {F : Type} {RT : Runtime F}.

(** *** [load_model] *)

Definition nf4_config : BitsAndBytesConfig :=
  {| load_in_4bit := true;
     bnb_4bit_compute_dtype := float16;
     bnb_4bit_use_double_quant := true;
     bnb_4bit_quant_type := py "nf4" |}.

(** Lines 72-97: the device, the quantization configuration and the model
    name to fetch. *)
Definition select_device (model_name : pystr)
  : M Exn (pystr * option BitsAndBytesConfig * pystr) :=
  if cuda_is_available then
    call Ev_get_device_name cuda_get_device_name ;;;
    quantization_config <-
      try_except exn_is_ImportError (fun e => e)
        (call Ev_import_bitsandbytes import_bitsandbytes ;;;
         ret (Some nf4_config))
        (fun _ => ret None) ;;
    ret (py "cuda", quantization_config, model_name)
  else
    ret (py "cpu", None,
         if contains (py "30B") model_name || contains (py "32B") model_name
         then py "Qwen/Qwen2.5-Coder-7B-Instruct"
         else model_name).

(** Lines 109-116 and 118-125: the arguments of the first model fetch. *)
Definition first_args (model_name device cache_dir : pystr)
    (quantization_config : option BitsAndBytesConfig) : ModelArgs :=
  match quantization_config with
  | Some q =>
      {| ma_name := model_name;
         ma_quantization_config := Some q;
         ma_device_map := Some (py "auto");
         ma_trust_remote_code := true;
         ma_cache_dir := cache_dir;
         ma_torch_dtype := float16;
         ma_low_cpu_mem_usage := None;
         ma_offload_folder := None;
         ma_offload_state_dict := None |}
  | None =>
      {| ma_name := model_name;
         ma_quantization_config := None;
         ma_device_map :=
           if bool_decide (device = py "cuda") then Some (py "auto") else None;
         ma_trust_remote_code := true;
         ma_cache_dir := cache_dir;
         ma_torch_dtype :=
           if bool_decide (device = py "cuda") then float16 else float32;
         ma_low_cpu_mem_usage := Some true;
         ma_offload_folder := None;
         ma_offload_state_dict := None |}
  end.

(** Lines 135-143: the arguments of the fetch in the [except] branch. *)
Definition retry_args (model_name cache_dir : pystr) : ModelArgs :=
  {| ma_name := model_name;
     ma_quantization_config := None;
     ma_device_map := Some (py "auto");
     ma_trust_remote_code := true;
     ma_cache_dir := cache_dir;
     ma_torch_dtype := float32;
     ma_low_cpu_mem_usage := None;
     ma_offload_folder := Some (path_join cache_dir (py "offload"));
     ma_offload_state_dict := Some true |}.

(** Lines 107-128: the [try] block. *)
Definition load_try (model_name device cache_dir : pystr)
    (quantization_config : option BitsAndBytesConfig) : M Exn unit :=
  let a := first_args model_name device cache_dir quantization_config in
  m <- call (Ev_model_from_pretrained a) (model_from_pretrained a) ;;
  set_model m ;;;
  if bool_decide (device = py "cpu") then
    m' <- call (Ev_model_to device) (model_to m device) ;;
    set_model m'
  else ret tt.

(** Lines 130-143: the [except Exception] branch. *)
Definition load_except (model_name cache_dir : pystr) (e : Exn) : M Exn unit :=
  let a := retry_args model_name cache_dir in
  m <- call (Ev_model_from_pretrained a) (model_from_pretrained a) ;;
  set_model m.

Definition load_model (model_name : pystr)
  : M Exn (option Model * option Tokenizer) :=
  let cache_dir := expanduser (py "~/.woocode/models") in
  call (Ev_makedirs cache_dir) (makedirs cache_dir) ;;;
  sel <- select_device model_name ;;
  let '(device, quantization_config, model_name) := sel in
  let ta := {| ta_name := model_name;
               ta_trust_remote_code := true;
               ta_cache_dir := cache_dir |} in
  t <- call (Ev_tokenizer_from_pretrained ta) (tokenizer_from_pretrained ta) ;;
  set_tokenizer t ;;;
  try_except exn_is_Exception (fun e => e)
    (load_try model_name device cache_dir quantization_config)
    (load_except model_name cache_dir) ;;;
  st <- get ;;
  ret (model st, tokenizer st).

(** *** [generate] *)

(** Lines 216-223: from the decoded output to the returned content. *)
Definition response_text (prompt generated : pystr) : pystr :=
  let response_text :=
    if contains prompt generated
    then slice_from (length prompt) generated
    else generated in
  strip (replace response_text (py "<|im_end|>") []).

(** Lines 225-235: the [usage] dictionary. *)
Definition usage_dict (prompt_tokens completion_tokens : Z) : gmap string Z :=
  <["total_tokens"%string := (prompt_tokens + completion_tokens)%Z]>
    (<["completion_tokens"%string := completion_tokens]>
       (<["prompt_tokens"%string := prompt_tokens]> ∅)).

(** Lines 186-236: the [try] block of the handler, with the two globals
    it reads. *)
Definition generate_try (mdl : Model) (tok : Tokenizer)
    (request : GenerateRequest F) : M Exn GenerateResponse :=
  let prompt := format_messages (messages request) in
  inputs <- call (Ev_tokenize prompt 32768) (tokenizer_call tok prompt 32768) ;;
  inputs <- (if cuda_is_available
             then call (Ev_inputs_to (py "cuda")) (encoding_to inputs (py "cuda"))
             else ret inputs) ;;
  let generation_config :=
    {| max_new_tokens := max_tokens request;
       gc_temperature := temperature request;
       gc_top_p := top_p request;
       gc_top_k := top_k request;
       do_sample := true;
       gc_pad_token_id := pad_token_id tok;
       gc_eos_token_id := eos_token_id tok |} in
  call (Ev_generation_config generation_config)
       (generation_config_init generation_config) ;;;
  outputs <- call (Ev_generate generation_config)
                  (model_generate mdl inputs generation_config) ;;
  outputs0 <- index0 outputs ;;
  generated <- call (Ev_decode outputs0 false) (tokenizer_decode tok outputs0 false) ;;
  let text := response_text prompt generated in
  input_ids0 <- index0 (input_ids inputs) ;;
  let prompt_tokens := Z.of_nat (length input_ids0) in
  let completion_tokens := (Z.of_nat (length outputs0) - prompt_tokens)%Z in
  ret {| resp_content := text;
         usage := usage_dict prompt_tokens completion_tokens |}.

Definition model_not_loaded : HTTPException :=
  {| status_code := 500; detail := py "Model not loaded" |}.

(** The [/generate] handler.  [not model or not tokenizer] holds when a
    global is [None] or is an object whose truth value is false. *)
Definition generate (request : GenerateRequest F)
  : M Raised GenerateResponse :=
  st <- get ;;
  match model st, tokenizer st with
  | Some mdl, Some tok =>
      if negb (model_bool mdl) || negb (tokenizer_bool tok)
      then raise (HTTP model_not_loaded)
      else
        try_except exn_is_Exception Escaped (generate_try mdl tok request)
          (fun e => raise (HTTP {| status_code := 500; detail := exn_str e |}))
  | _, _ => raise (HTTP model_not_loaded)
  end.
End Program.

(** ** The words of the specification *)

(** [sep.join(pieces)] *)
Fixpoint join (sep : pystr) (pieces : list pystr) : pystr :=
  match pieces with
  | [] => []
  | [p] => p
  | p :: ps => p ++ sep ++ join sep ps
  end.

(** The roles the formatter recognizes. *)
Definition recognized (r : pystr) : bool :=
  bool_decide (r = py "system") || bool_decide (r = py "user")
  || bool_decide (r = py "assistant").

(** The block of one message: start marker with the role name, a newline,
    the content, the end marker and a newline. *)
Definition render_block (m : Message) : pystr :=
  py "<|im_start|>" ++ role m ++ nl ++ content m ++ py "<|im_end|>" ++ nl.

Arguments render_block : simpl never.

(** The open assistant marker that ends every prompt. *)
Definition open_assistant : pystr := py "<|im_start|>assistant" ++ nl.

(** [s] starts, respectively ends, with a whitespace character. *)
Definition leading_space (s : pystr) : bool :=
  match head s with Some c => isspace c | None => false end.
Definition trailing_space (s : pystr) : bool :=
  match last s with Some c => isspace c | None => false end.


(** What follows the first model fetch in the log of a run, with that
    fetch. *)
Fixpoint after_first_model_fetch {F} (log : list (Call F))
  : option (Call F * list (Call F)) :=
  match log with
  | [] => None
  | c :: rest =>
      match call_event c with
      | Ev_model_from_pretrained _ => Some (c, rest)
      | _ => after_first_model_fetch rest
      end
  end.

(** The model identifier a fetch of the tokenizer or of the model asks for. *)
Definition fetch_name {F} (ev : Event F) : option pystr :=
  match ev with
  | Ev_tokenizer_from_pretrained a => Some (ta_name a)
  | Ev_model_from_pretrained a => Some (ma_name a)
  | _ => None
  end.

(** ** A small runtime to run the server on

    A character-level tokenizer (one token per code point), a model that
    echoes its input and appends [completion], and a hub where a model fetch
    succeeds when [fetch_ok] says so.  [shown] is text the tokenizer puts in
    front of what it decodes (a beginning-of-text token, for instance). *)
Definition demo_runtime (cuda bnb : bool) (fetch_ok : ModelArgs -> bool)
    (completion : pystr) (shown : pystr) : Runtime unit :=
  {| World := unit;
     Model := unit;
     Tokenizer := unit;
     BatchEncoding := list (list Z);
     model_bool := fun _ => true;
     tokenizer_bool := fun _ => true;
     cuda_is_available := cuda;
     expanduser := fun p => py "/home/user" ++ drop 1 p;
     path_join := fun a b => a ++ py "/" ++ b;
     makedirs := fun _ w => (inr tt, w);
     cuda_get_device_name := fun w => (inr (py "GPU 0"), w);
     import_bitsandbytes := fun w =>
       if bnb then (inr tt, w)
       else (inl {| exn_class := ImportError;
                    exn_str := py "No module named 'bitsandbytes'" |}, w);
     tokenizer_from_pretrained := fun _ w => (inr tt, w);
     model_from_pretrained := fun a w =>
       if fetch_ok a then (inr tt, w)
       else (inl {| exn_class := Exception;
                    exn_str := py "out of memory" |}, w);
     model_to := fun m _ w => (inr m, w);
     tokenizer_call := fun _ text _ w => (inr [map Z.of_N text], w);
     encoding_to := fun inputs _ w => (inr inputs, w);
     input_ids := fun inputs => inputs;
     pad_token_id := fun _ => None;
     eos_token_id := fun _ => None;
     generation_config_init := fun _ w => (inr tt, w);
     model_generate := fun _ inputs _ w =>
       (inr (map (fun row => row ++ map Z.of_N completion) inputs), w);
     tokenizer_decode := fun _ ids _ w => (inr (shown ++ map Z.to_N ids), w);
     index_error_str := py "index 0 is out of bounds" |}.

(** The request of the specification's example: one user message ["Hi"]. *)
Definition hi_request (s : option bool) : GenerateRequest unit :=
  {| messages := [ {| role := py "user"; content := py "Hi" |} ];
     max_tokens := Some 1%Z;
     temperature := None;
     top_p := None;
     top_k := Some 40%Z;
     stream := s |}.

(** The process before [load_model] has run, and after it has. *)
Definition not_loaded `{RT : Runtime F} (w : World) : State :=
  {| model := None; tokenizer := None; world := w |}.
Definition loaded `{RT : Runtime F} (m : Model) (t : Tokenizer) (w : World) : State :=
  {| model := Some m; tokenizer := Some t; world := w |}.


(** A hub on which only a fetch with state-dict offloading succeeds. *)
Definition needs_offload (a : ModelArgs) : bool :=
  match ma_offload_state_dict a with
  | Some true => true
  | _ => false
  end.

(** The small runtime with a model whose [generate] raises. *)
Definition failing_generate_runtime : Runtime unit :=
  let RT := demo_runtime false false (fun _ => true) [] [] in
  {| World := unit;
     Model := unit;
     Tokenizer := unit;
     BatchEncoding := list (list Z);
     model_bool := fun _ => true;
     tokenizer_bool := fun _ => true;
     cuda_is_available := false;
     expanduser := @expanduser unit RT;
     path_join := @path_join unit RT;
     makedirs := @makedirs unit RT;
     cuda_get_device_name := @cuda_get_device_name unit RT;
     import_bitsandbytes := @import_bitsandbytes unit RT;
     tokenizer_from_pretrained := @tokenizer_from_pretrained unit RT;
     model_from_pretrained := @model_from_pretrained unit RT;
     model_to := @model_to unit RT;
     tokenizer_call := @tokenizer_call unit RT;
     encoding_to := @encoding_to unit RT;
     input_ids := fun inputs => inputs;
     pad_token_id := fun _ => None;
     eos_token_id := fun _ => None;
     generation_config_init := @generation_config_init unit RT;
     model_generate := fun _ _ _ w =>
       (inl {| exn_class := Exception;
               exn_str := py "CUDA out of memory" |}, w);
     tokenizer_decode := @tokenizer_decode unit RT;
     index_error_str := @index_error_str unit RT |}.


(** [KeyboardInterrupt()], which is not an instance of [Exception]; its
    [str] is empty. *)
Definition keyboard_interrupt : Exn :=
  {| exn_class := BaseException; exn_str := [] |}.

(** The small runtime on which the user interrupts the process during the
    model fetch, during the move of the model or during the generation. *)
Definition interrupted_runtime (at_fetch at_move at_generate : bool)
  : Runtime unit :=
  let RT := demo_runtime false false (fun _ => true) [] [] in
  {| World := unit;
     Model := unit;
     Tokenizer := unit;
     BatchEncoding := list (list Z);
     model_bool := fun _ => true;
     tokenizer_bool := fun _ => true;
     cuda_is_available := false;
     expanduser := @expanduser unit RT;
     path_join := @path_join unit RT;
     makedirs := @makedirs unit RT;
     cuda_get_device_name := @cuda_get_device_name unit RT;
     import_bitsandbytes := @import_bitsandbytes unit RT;
     tokenizer_from_pretrained := @tokenizer_from_pretrained unit RT;
     model_from_pretrained := fun _ w =>
       if at_fetch then (inl keyboard_interrupt, w) else (inr tt, w);
     model_to := fun m _ w =>
       if at_move then (inl keyboard_interrupt, w) else (inr m, w);
     tokenizer_call := @tokenizer_call unit RT;
     encoding_to := @encoding_to unit RT;
     input_ids := fun inputs => inputs;
     pad_token_id := fun _ => None;
     eos_token_id := fun _ => None;
     generation_config_init := @generation_config_init unit RT;
     model_generate := fun _ inputs _ w =>
       if at_generate then (inl keyboard_interrupt, w) else (inr inputs, w);
     tokenizer_decode := @tokenizer_decode unit RT;
     index_error_str := @index_error_str unit RT |}.

(** ** The start of the server and the model catalog *)

(** [os.environ.get(key, default)] on the environment of the process. *)
Definition environ_get (environ : gmap string pystr) (key : string)
    (dflt : pystr) : pystr :=
  match environ !! key with
  | Some v => v
  | None => dflt
  end.

Section Startup.
Context {F : Type} {RT : Runtime F}.

(** [startup_event]: the model named by [QWEN_MODEL] is loaded; what
    [load_model] returns is dropped. *)
Definition startup_event (environ : gmap string pystr) : M Exn unit :=
  let model_name :=
    environ_get environ "QWEN_MODEL" (py "Qwen/Qwen3-Coder-30B-A3B-Instruct") in
  load_model model_name ;;;
  ret tt.
End Startup.

(** One entry of the catalog: a dictionary with the keys [id], [name] and
    [description]. *)
Definition catalog_entry (id name description : pystr) : gmap string pystr :=
  <["description"%string := description]>
    (<["name"%string := name]> (<["id"%string := id]> ∅)).

(** [list_models]: the answer of [GET /models]. *)
Definition list_models : gmap string (list (gmap string pystr)) :=
  <["models"%string :=
      [ catalog_entry (py "Qwen/Qwen3-Coder-30B-A3B-Instruct")
          (py "Qwen3-Coder 30B A3B")
          (py "Advanced coding model with 30B parameters");
        catalog_entry (py "Qwen/Qwen2.5-Coder-32B-Instruct")
          (py "Qwen2.5-Coder 32B")
          (py "Latest Qwen2.5 coding model");
        catalog_entry (py "Qwen/Qwen2.5-Coder-7B-Instruct")
          (py "Qwen2.5-Coder 7B")
          (py "Smaller, faster Qwen2.5 model") ]]> ∅.

(** ** Reading the log of a run *)

Definition is_tokenize {F} (ev : Event F) : bool :=
  match ev with Ev_tokenize _ _ => true | _ => false end.
Definition is_generate {F} (ev : Event F) : bool :=
  match ev with Ev_generate _ => true | _ => false end.
Definition is_decode {F} (ev : Event F) : bool :=
  match ev with Ev_decode _ _ => true | _ => false end.
Definition is_model_to {F} (ev : Event F) : bool :=
  match ev with Ev_model_to _ => true | _ => false end.

(** How many calls of a kind a log holds. *)
Definition count_calls {F} (kind : Event F -> bool) (log : list (Call F)) : nat :=
  length (List.filter (fun c => kind (call_event c)) log).

(** The first call of a kind in a log, with what follows it. *)
Fixpoint after_first {F} (kind : Event F -> bool) (log : list (Call F))
  : option (Call F * list (Call F)) :=
  match log with
  | [] => None
  | c :: rest =>
      if kind (call_event c) then Some (c, rest) else after_first kind rest
  end.

(** The model name, [trust_remote_code] and cache directory of a fetch of the
    tokenizer or of the model. *)
Definition fetch_settings {F} (ev : Event F) : option (pystr * bool * pystr) :=
  match ev with
  | Ev_tokenizer_from_pretrained a =>
      Some (ta_name a, ta_trust_remote_code a, ta_cache_dir a)
  | Ev_model_from_pretrained a =>
      Some (ma_name a, ma_trust_remote_code a, ma_cache_dir a)
  | _ => None
  end.

(** ** A runtime with switches

    The small runtime with more to choose: whether the tokenizer fetch and
    the move of the model succeed, the truth value of the tokenizer, the
    batch the model returns and the text the tokenizer decodes to. *)
Record Lab := {
  lab_cuda : bool;
  lab_bnb : bool;
  lab_tokenizer_fetch_ok : bool;
  lab_fetch_ok : ModelArgs -> bool;
  lab_to_ok : bool;
  lab_tokenizer_truth : bool;
  lab_outputs : list (list Z) -> list (list Z);
  lab_decode : list Z -> pystr
}.

Definition lab_error (msg : pystr) : Exn :=
  {| exn_class := Exception; exn_str := msg |}.

Definition lab_runtime (l : Lab) : Runtime unit :=
  {| World := unit;
     Model := unit;
     Tokenizer := unit;
     BatchEncoding := list (list Z);
     model_bool := fun _ => true;
     tokenizer_bool := fun _ => lab_tokenizer_truth l;
     cuda_is_available := lab_cuda l;
     expanduser := fun p => py "/home/user" ++ drop 1 p;
     path_join := fun a b => a ++ py "/" ++ b;
     makedirs := fun _ w => (inr tt, w);
     cuda_get_device_name := fun w => (inr (py "GPU 0"), w);
     import_bitsandbytes := fun w =>
       if lab_bnb l then (inr tt, w)
       else (inl {| exn_class := ImportError;
                    exn_str := py "No module named 'bitsandbytes'" |}, w);
     tokenizer_from_pretrained := fun _ w =>
       if lab_tokenizer_fetch_ok l then (inr tt, w)
       else (inl (lab_error (py "tokenizer not found")), w);
     model_from_pretrained := fun a w =>
       if lab_fetch_ok l a then (inr tt, w)
       else (inl (lab_error (py "out of memory")), w);
     model_to := fun m _ w =>
       if lab_to_ok l then (inr m, w)
       else (inl (lab_error (py "cannot move the model")), w);
     tokenizer_call := fun _ text _ w => (inr [map Z.of_N text], w);
     encoding_to := fun inputs _ w => (inr inputs, w);
     input_ids := fun inputs => inputs;
     pad_token_id := fun _ => None;
     eos_token_id := fun _ => None;
     generation_config_init := fun _ w => (inr tt, w);
     model_generate := fun _ inputs _ w => (inr (lab_outputs l inputs), w);
     tokenizer_decode := fun _ ids _ w => (inr (lab_decode l ids), w);
     index_error_str := py "index 0 is out of bounds" |}.

(** The switches of an ordinary machine without accelerator: everything
    succeeds, the model echoes its input and appends [completion]. *)
Definition plain_lab (completion : pystr) : Lab :=
  {| lab_cuda := false;
     lab_bnb := false;
     lab_tokenizer_fetch_ok := true;
     lab_fetch_ok := fun _ => true;
     lab_to_ok := true;
     lab_tokenizer_truth := true;
     lab_outputs := map (fun row => row ++ map Z.of_N completion);
     lab_decode := map Z.to_N |}.

(** ** Tactics *)

(** Running a computation given by an equation [H], one library call,
    index or test at a time. *)
Ltac run_in H :=
  repeat (cbn [world model tokenizer] in H;
    match type of H with
    | (inl _, _, _) = (inr _, _, _) => discriminate H
    | context [match ?x with _ => _ end] =>
        lazymatch type of x with
        | ((Exn + _) * World)%type =>
            let e := fresh "e" in
            let a := fresh "a" in
            let w := fresh "w" in
            let E := fresh "Ecall" in
            destruct x as [[e|a] w] eqn:E
        | list _ =>
            let E := fresh "Eidx" in destruct x eqn:E
        end
    | context [if cuda_is_available then _ else _] =>
        let E := fresh "Ecuda" in destruct cuda_is_available eqn:E
    end).

(** The same for [load_model], where the tests are on the class of an
    exception and on the device name. *)
Ltac run_load H :=
  repeat (cbn [world model tokenizer] in H;
    match type of H with
    | context [match ?x with _ => _ end] =>
        lazymatch type of x with
        | ((Exn + _) * World)%type =>
            let e := fresh "e" in
            let a := fresh "a" in
            let w := fresh "w" in
            let E := fresh "Ecall" in
            destruct x as [[e|a] w] eqn:E
        end
    | context [if exn_is_ImportError ?e then _ else _] =>
        let E := fresh "Eimp" in destruct (exn_is_ImportError e) eqn:E
    | context [if exn_is_Exception ?e then _ else _] =>
        let E := fresh "Eexc" in destruct (exn_is_Exception e) eqn:E
    | context [bool_decide (?a = ?b)] =>
        let v := eval vm_compute in (bool_decide (a = b)) in
        lazymatch v with
        | true => change (bool_decide (a = b)) with true in H
        | false => change (bool_decide (a = b)) with false in H
        end
    end).

(** One case per way a run of [load_model] can go. *)
Ltac load_cases H :=
  unfold load_model, select_device, load_try, load_except, try_except,
    bind, call, get, set_model, set_tokenizer, raise, ret in H;
  destruct cuda_is_available eqn:?; run_load H;
  try discriminate H; injection H as <- <- <-.

(** ** The string operations on examples *)

Example format_hi :
  format_messages [ {| role := py "user"; content := py "Hi" |} ]
  = py "<|im_start|>user" ++ nl ++ py "Hi<|im_end|>" ++ nl
    ++ py "<|im_start|>assistant" ++ nl.
Proof. reflexivity. Qed.

Example format_skips_other_role :
  format_messages [ {| role := py "tool"; content := py "x" |};
                    {| role := py "User"; content := py "y" |} ]
  = py "<|im_start|>assistant" ++ nl.
Proof. reflexivity. Qed.

Example replace_twice :
  replace (py "a<|im_end|>b<|im_end|>") (py "<|im_end|>") [] = py "ab".
Proof. reflexivity. Qed.

Example replace_overlap : replace (py "aaa") (py "aa") (py "b") = py "ba".
Proof. reflexivity. Qed.

Example replace_empty_old : replace (py "ab") [] (py "-") = py "-a-b-".
Proof. reflexivity. Qed.

Example replace_reforms :
  replace (py "<|im_<|im_end|>end|>") (py "<|im_end|>") [] = py "<|im_end|>".
Proof. reflexivity. Qed.

Example strip_ex : strip (nl ++ py "  a b " ++ nl) = py "a b".
Proof. reflexivity. Qed.

Example contains_ex : contains (py "30B") (py "Qwen/Qwen3-Coder-30B-A3B-Instruct") = true.
Proof. reflexivity. Qed.

(** ** Facts about the string operations *)

Section StringFacts.
Implicit Types (p s t old new : pystr) (c : N).

Lemma startswith_app p t : startswith p (p ++ t) = true.
Proof.
  induction p as [|a p IH]; simpl; [reflexivity|].
  now rewrite N.eqb_refl.
Qed.

Lemma startswith_drop p s :
  startswith p s = true -> s = p ++ drop (length p) s.
Proof.
  revert s; induction p as [|a p IH]; intros [|b s] H; simpl in *;
    try reflexivity; try discriminate.
  destruct (N.eqb_spec a b) as [->|]; [|discriminate].
  f_equal. now apply IH.
Qed.

Lemma startswith_prefix p s : startswith p s = true <-> exists t, s = p ++ t.
Proof.
  split.
  - intros H. eexists. now apply startswith_drop.
  - intros [t ->]. apply startswith_app.
Qed.

Lemma startswith_app_r p s t :
  startswith p s = true -> startswith p (s ++ t) = true.
Proof.
  intros [u ->]%startswith_prefix. rewrite <- app_assoc.
  apply startswith_app.
Qed.

Lemma contains_startswith sub s :
  startswith sub s = true -> contains sub s = true.
Proof. intros H. destruct s; simpl; now rewrite H. Qed.

Lemma contains_infix sub s :
  contains sub s = true <-> exists a b, s = a ++ sub ++ b.
Proof.
  split.
  - induction s as [|c s IH]; simpl.
    + rewrite orb_false_r. intros [t Ht]%startswith_prefix.
      exists [], t. exact Ht.
    + intros [H|H]%orb_true_iff.
      * apply startswith_prefix in H as [t Ht]. exists [], t. exact Ht.
      * destruct (IH H) as (a & b & ->). now exists (c :: a), b.
  - intros (a & b & ->). induction a as [|c a IH].
    + rewrite app_nil_l. apply contains_startswith, startswith_app.
    + simpl. simpl in IH. rewrite IH. apply orb_true_r.
Qed.

Lemma contains_trans a b s :
  contains a b = true -> contains b s = true -> contains a s = true.
Proof.
  intros (x & y & ->)%contains_infix (u & v & ->)%contains_infix.
  apply contains_infix. exists (u ++ x), (y ++ v).
  now rewrite <- !app_assoc.
Qed.

(** *** [replace] *)

Lemma replace_scan_skip old new k s :
  replace_scan old new k s = replace_scan old new 0 (drop k s).
Proof.
  revert k; induction s as [|c s IH]; intros [|k]; try reflexivity.
  simpl replace_scan at 1. rewrite IH. reflexivity.
Qed.

Lemma replace_scan_hit old new s :
  old <> [] -> startswith old s = true ->
  replace_scan old new 0 s = new ++ replace_scan old new 0 (drop (length old) s).
Proof.
  intros Hne H. destruct s as [|c s].
  - destruct old; [congruence|discriminate].
  - cbn [replace_scan]. rewrite H, replace_scan_skip.
    destruct old as [|a old]; [congruence|]. simpl.
    now rewrite Nat.sub_0_r.
Qed.

Lemma replace_scan_miss old new c s :
  startswith old (c :: s) = false ->
  replace_scan old new 0 (c :: s) = c :: replace_scan old new 0 s.
Proof. intros H. cbn [replace_scan]. now rewrite H. Qed.

(** One pass of [replace] deletes the occurrences of a non-empty [old] it
    meets from left to right: the text is a [join] of pieces around them,
    each free of [old], and the result is the pieces put together. *)
Lemma replace_scan_pieces old s :
  old <> [] ->
  exists pieces,
    s = join old pieces
    /\ Forall (fun p => contains old p = false) pieces
    /\ replace_scan old [] 0 s = concat pieces.
Proof.
  intros Hne.
  remember (length s) as n eqn:Hn. revert s Hn.
  induction n as [n IH] using lt_wf_ind. intros s Hn.
  destruct s as [|c s].
  - exists [[]]. repeat split.
    constructor; [|constructor]. simpl.
    destruct old; [congruence|reflexivity].
  - destruct (startswith old (c :: s)) eqn:Hs.
    + pose proof (startswith_drop _ _ Hs) as Hd.
      assert (Hlen : length (drop (length old) (c :: s)) < n).
      { subst n. rewrite length_drop. destruct old; [congruence|].
        simpl. lia. }
      destruct (IH _ Hlen _ eq_refl) as (ps & Hj & Hf & Hr).
      destruct ps as [|p0 ps].
      * exists [[]; []]. repeat split.
        -- simpl. rewrite app_nil_r. simpl in Hj. rewrite Hj in Hd.
           now rewrite app_nil_r in Hd.
        -- assert (contains old [] = false)
             by (destruct old; [congruence|reflexivity]).
           repeat constructor; assumption.
        -- rewrite replace_scan_hit by assumption. simpl in *.
           now rewrite Hr.
      * exists ([] :: p0 :: ps). repeat split.
        -- change (join old ([] :: p0 :: ps)) with ([] ++ old ++ join old (p0 :: ps)).
           rewrite <- Hj. exact Hd.
        -- constructor; [|exact Hf].
           destruct old; [congruence|reflexivity].
        -- rewrite replace_scan_hit by assumption. simpl app at 1.
           rewrite Hr. reflexivity.
    + assert (Hlen : length s < n) by (subst n; simpl; lia).
      destruct (IH _ Hlen _ eq_refl) as (ps & Hj & Hf & Hr).
      destruct ps as [|p0 ps].
      * exists [[c]]. simpl in Hj. subst s. split; [reflexivity|]. split.
        -- constructor; [|constructor]. simpl. rewrite Hs. simpl.
           destruct old; [congruence|reflexivity].
        -- rewrite replace_scan_miss by assumption. reflexivity.
      * exists ((c :: p0) :: ps). repeat split.
        -- rewrite Hj. destruct ps; reflexivity.
        -- inversion Hf as [|? ? Hp0 Hps]; subst. constructor; [|exact Hps].
           simpl. rewrite Hp0, orb_false_r.
           destruct (startswith old (c :: p0)) eqn:E; [|reflexivity].
           assert (startswith old (c :: join old (p0 :: ps)) = true).
           { destruct ps as [|p1 ps].
             - exact E.
             - change (join old (p0 :: p1 :: ps))
                 with (p0 ++ old ++ join old (p1 :: ps)).
               change (c :: p0 ++ old ++ join old (p1 :: ps))
                 with ((c :: p0) ++ old ++ join old (p1 :: ps)).
               now apply startswith_app_r. }
           congruence.
        -- rewrite replace_scan_miss by assumption. rewrite Hr. reflexivity.
Qed.

(** *** [strip] *)

Lemma drop_while_head f s c :
  head (drop_while f s) = Some c -> f c = false.
Proof.
  induction s as [|a s IH]; simpl; [discriminate|].
  destruct (f a) eqn:E; [exact IH|]. simpl. congruence.
Qed.

Lemma drop_while_suffix f s : exists a, s = a ++ drop_while f s.
Proof.
  induction s as [|c s [a IH]]; simpl.
  - now exists [].
  - destruct (f c).
    + exists (c :: a). simpl. now f_equal.
    + now exists [].
Qed.

Lemma head_rev_last (l : pystr) : head (rev l) = last l.
Proof.
  induction l as [|a l IH] using rev_ind; [reflexivity|].
  rewrite rev_app_distr. simpl. now rewrite last_snoc.
Qed.

Lemma last_rev_head (l : pystr) : last (rev l) = head l.
Proof. rewrite <- head_rev_last, rev_involutive. reflexivity. Qed.

Lemma rstrip_prefix s : exists w, s = rstrip s ++ w.
Proof.
  unfold rstrip. destruct (drop_while_suffix isspace (rev s)) as [a Ha].
  exists (rev a). rewrite <- rev_app_distr, <- Ha. now rewrite rev_involutive.
Qed.

Lemma strip_no_leading_space s : leading_space (strip s) = false.
Proof.
  unfold leading_space, strip.
  destruct (head (rstrip (lstrip s))) as [c|] eqn:E; [|reflexivity].
  destruct (rstrip_prefix (lstrip s)) as [w Hw].
  destruct (rstrip (lstrip s)) as [|c' r]; [discriminate|].
  simpl in E. injection E as ->.
  apply (drop_while_head isspace s). fold (lstrip s). now rewrite Hw.
Qed.

Lemma strip_no_trailing_space s : trailing_space (strip s) = false.
Proof.
  unfold trailing_space, strip, rstrip. rewrite last_rev_head.
  destruct (head _) as [c|] eqn:E; [|reflexivity].
  now apply drop_while_head in E.
Qed.
End StringFacts.

(** ** The prompt formatter *)

Section Formatter.
Implicit Types (m : Message) (msgs : list Message).

Lemma format_step_recognized acc m :
  recognized (role m) = true -> format_step acc m = acc ++ render_block m.
Proof.
  unfold recognized, format_step, render_block. destruct m as [r c].
  cbn [role content]. intros H.
  destruct (bool_decide (r = py "system")) eqn:E1.
  { apply bool_decide_eq_true in E1 as ->. reflexivity. }
  destruct (bool_decide (r = py "user")) eqn:E2.
  { apply bool_decide_eq_true in E2 as ->. reflexivity. }
  destruct (bool_decide (r = py "assistant")) eqn:E3.
  { apply bool_decide_eq_true in E3 as ->. reflexivity. }
  discriminate.
Qed.

Lemma format_step_other acc m :
  recognized (role m) = false -> format_step acc m = acc.
Proof.
  unfold recognized, format_step. intros H.
  destruct (bool_decide (role m = py "system")); [discriminate|].
  destruct (bool_decide (role m = py "user")); [discriminate|].
  destruct (bool_decide (role m = py "assistant")); [discriminate|].
  reflexivity.
Qed.

Lemma fold_format_step msgs acc :
  fold_left format_step msgs acc
  = acc ++ concat (map render_block
                     (List.filter (fun m => recognized (role m)) msgs)).
Proof.
  revert acc; induction msgs as [|m msgs IH]; intros acc; simpl.
  - now rewrite app_nil_r.
  - rewrite IH. destruct (recognized (role m)) eqn:E.
    + rewrite format_step_recognized by assumption. simpl.
      now rewrite <- app_assoc.
    + now rewrite format_step_other.
Qed.

Lemma format_messages_blocks msgs :
  format_messages msgs
  = concat (map render_block
              (List.filter (fun m => recognized (role m)) msgs))
    ++ open_assistant.
Proof. unfold format_messages. now rewrite fold_format_step. Qed.

(** C2: the rendered prompt is the blocks of the messages with a
    recognized role, in input order, then the open assistant marker and
    nothing else; messages with another role leave no trace.  The single
    user message ["Hi"] renders as the specification's example says. *)
Theorem format_messages_spec :
  (forall msgs,
      format_messages msgs
      = concat (map render_block
                  (List.filter (fun m => recognized (role m)) msgs))
        ++ py "<|im_start|>assistant" ++ nl)
  /\ format_messages [ {| role := py "user"; content := py "Hi" |} ]
     = py "<|im_start|>user" ++ nl ++ py "Hi<|im_end|>" ++ nl
       ++ py "<|im_start|>assistant" ++ nl.
Proof.
  split.
  - intros msgs. apply format_messages_blocks.
  - reflexivity.
Qed.

Lemma content_in_block m : contains (content m) (render_block m) = true.
Proof.
  unfold render_block. apply contains_infix.
  exists (py "<|im_start|>" ++ role m ++ nl), (py "<|im_end|>" ++ nl).
  rewrite <- !app_assoc. reflexivity.
Qed.

Lemma block_in_prompt msgs m :
  In m msgs -> recognized (role m) = true ->
  contains (render_block m) (format_messages msgs) = true.
Proof.
  intros Hin Hr. rewrite format_messages_blocks.
  assert (Hf : In m (List.filter (fun m => recognized (role m)) msgs))
    by (apply filter_In; split; assumption).
  apply in_split in Hf as (l1 & l2 & ->).
  rewrite map_app, concat_app. cbn [map concat].
  apply contains_infix.
  exists (concat (map render_block l1)),
         (concat (map render_block l2) ++ open_assistant).
  rewrite <- !app_assoc. reflexivity.
Qed.

(** C10: the content of every message with a recognized role occurs
    literally in the prompt, so a marker inside the content is a marker
    of the prompt; a user message whose content closes its own block and
    opens a system block renders exactly as the two separate messages. *)
Theorem content_verbatim :
  (forall msgs m,
      In m msgs -> recognized (role m) = true ->
      contains (content m) (format_messages msgs) = true
      /\ (forall marker,
             contains marker (content m) = true ->
             contains marker (format_messages msgs) = true))
  /\ (forall x y,
         format_messages
           [ {| role := py "user";
                content := x ++ py "<|im_end|>" ++ nl
                           ++ py "<|im_start|>system" ++ nl ++ y |} ]
         = format_messages
             [ {| role := py "user"; content := x |};
               {| role := py "system"; content := y |} ]).
Proof.
  split.
  - intros msgs m Hin Hr.
    assert (H : contains (content m) (format_messages msgs) = true).
    { eapply contains_trans; [apply content_in_block|].
      now apply block_in_prompt. }
    split; [exact H|]. intros marker Hm. eapply contains_trans; eassumption.
  - intros x y. unfold format_messages. cbn [fold_left].
    rewrite !format_step_recognized by reflexivity.
    unfold render_block. cbn [role content].
    rewrite <- !app_assoc. reflexivity.
Qed.

Lemma content_verbatim_witness :
  contains (py "<|im_end|>")
    (format_messages [ {| role := py "user"; content := py "a<|im_end|>b" |} ])
  = true.
Proof.
  refine (proj2 (proj1 content_verbatim
                   [ {| role := py "user"; content := py "a<|im_end|>b" |} ]
                   {| role := py "user"; content := py "a<|im_end|>b" |}
                   _ _) (py "<|im_end|>") _).
  - simpl. left. reflexivity.
  - reflexivity.
  - reflexivity.
Defined.
End Formatter.

(** ** The generation handler *)

Section Handler.
Context {F : Type} {RT : Runtime F}.
Implicit Types (request : GenerateRequest F) (st : State).

Lemma generate_none request st :
  model st = None \/ tokenizer st = None ->
  generate request st = (inl (HTTP model_not_loaded), st, []).
Proof.
  intros H. unfold generate, bind, get.
  destruct (model st) as [mdl|], (tokenizer st) as [tok|];
    try reflexivity.
  destruct H; discriminate.
Qed.

(** C3: while the model handle or the tokenizer handle is [None], the
    handler raises [HTTPException(500, "Model not loaded")] at once: the
    process state is unchanged and no library call is made (no
    tokenization, no generation); the result is the HTTP error, not an
    escaping exception. *)
Theorem generate_model_not_loaded request st :
  model st = None \/ tokenizer st = None ->
  generate request st
  = (inl (HTTP {| status_code := 500; detail := py "Model not loaded" |}),
     st, []).
Proof. apply generate_none. Qed.

Lemma generate_falsy request st mdl tok :
  model st = Some mdl -> tokenizer st = Some tok ->
  model_bool mdl = false \/ tokenizer_bool tok = false ->
  generate request st = (inl (HTTP model_not_loaded), st, []).
Proof.
  intros Hm Ht H. unfold generate, bind, get. rewrite Hm, Ht.
  destruct H as [-> | ->]; [|rewrite orb_true_r]; reflexivity.
Qed.

(** With both handles populated the handler is its [try] block, with
    every instance of [Exception] turned into a 500 and every other
    exception let through. *)
Lemma generate_loaded request st mdl tok :
  model st = Some mdl -> tokenizer st = Some tok ->
  model_bool mdl = true -> tokenizer_bool tok = true ->
  generate request st
  = match generate_try mdl tok request st with
    | (inr r, st', log) => (inr r, st', log)
    | (inl e, st', log) =>
        if exn_is_Exception e
        then (inl (HTTP {| status_code := 500; detail := exn_str e |}),
              st', log)
        else (inl (Escaped e), st', log)
    end.
Proof.
  intros Hm Ht Hbm Hbt. unfold generate, bind, get. rewrite Hm, Ht, Hbm, Hbt.
  cbn [negb orb]. unfold try_except, raise.
  destruct (generate_try mdl tok request st) as [[[e|r] st'] log];
    [|reflexivity].
  destruct (exn_is_Exception e); [|reflexivity].
  now rewrite app_nil_r.
Qed.

(** C8: the handler does not read [stream]: two requests that agree on
    every other field give the same result, the same state and the same
    library calls from the same state. *)
Theorem generate_ignores_stream (r1 r2 : GenerateRequest F) st :
  messages r1 = messages r2 ->
  max_tokens r1 = max_tokens r2 ->
  temperature r1 = temperature r2 ->
  top_p r1 = top_p r2 ->
  top_k r1 = top_k r2 ->
  generate r1 st = generate r2 st.
Proof.
  destruct r1 as [m1 mt1 t1 p1 k1 s1], r2 as [m2 mt2 t2 p2 k2 s2].
  cbn [messages max_tokens temperature top_p top_k].
  intros -> -> -> -> ->. reflexivity.
Qed.

(** What a successful run of the [try] block went through. *)
Lemma generate_try_inr mdl tok request st resp st' log :
  generate_try mdl tok request st = (inr resp, st', log) ->
  exists inputs cfg outputs input_ids0 outputs0 generated w1 w2 w3 w4,
    model_generate mdl inputs cfg w1 = (inr outputs, w2)
    /\ head (input_ids inputs) = Some input_ids0
    /\ head outputs = Some outputs0
    /\ tokenizer_decode tok outputs0 false w3 = (inr generated, w4)
    /\ resp = {| resp_content :=
                   response_text (format_messages (messages request)) generated;
                 usage :=
                   usage_dict (Z.of_nat (length input_ids0))
                     (Z.of_nat (length outputs0) - Z.of_nat (length input_ids0)) |}.
Proof.
  unfold generate_try, bind, call, index0, raise, ret. intros H.
  run_in H; injection H as <- <- <-.
  all: repeat eexists; try eassumption.
  all: try (rewrite Eidx0); reflexivity.
Qed.

(** An exception of a library call ends the [try] block with it. *)
Lemma generate_try_raised mdl tok request st r st' log :
  generate_try mdl tok request st = (r, st', log) ->
  forall c e, In c log -> call_raised c = Some e -> r = inl e.
Proof.
  unfold generate_try, bind, call, index0, raise, ret. intros H.
  run_in H. all: injection H as <- <- <-.
  all: intros c e' Hin Hc; cbn in Hin.
  all: repeat (destruct Hin as [<-|Hin]; [cbn in Hc; congruence|]).
  all: destruct Hin.
Qed.

Lemma generate_inr request st resp st' log :
  generate request st = (inr resp, st', log) ->
  exists mdl tok,
    model st = Some mdl /\ tokenizer st = Some tok
    /\ generate_try mdl tok request st = (inr resp, st', log).
Proof.
  intros H.
  destruct (model st) as [mdl|] eqn:Hm;
    [|rewrite generate_none in H by (now left); discriminate].
  destruct (tokenizer st) as [tok|] eqn:Ht;
    [|rewrite generate_none in H by (now right); discriminate].
  destruct (model_bool mdl) eqn:Hbm;
    [|rewrite (generate_falsy _ _ mdl tok) in H by auto; discriminate].
  destruct (tokenizer_bool tok) eqn:Hbt;
    [|rewrite (generate_falsy _ _ mdl tok) in H by auto; discriminate].
  rewrite (generate_loaded _ _ mdl tok) in H by assumption.
  exists mdl, tok. repeat split.
  destruct (generate_try mdl tok request st) as [[[e|r] st1] log1];
    [destruct (exn_is_Exception e); discriminate|congruence].
Qed.

(** The two cases in which the content is what the specification says. *)
Lemma response_text_prefix prompt generated :
  startswith prompt generated = true ->
  response_text prompt generated
  = strip (replace (drop (length prompt) generated) (py "<|im_end|>") [])
  /\ generated = prompt ++ drop (length prompt) generated.
Proof.
  intros H. unfold response_text, slice_from.
  rewrite (contains_startswith _ _ H). split; [reflexivity|].
  now apply startswith_drop.
Qed.

Lemma response_text_absent prompt generated :
  contains prompt generated = false ->
  response_text prompt generated
  = strip (replace generated (py "<|im_end|>") []).
Proof. intros H. unfold response_text. now rewrite H. Qed.

(** C7: in every successful response the three counts of [usage] are
    there, [total_tokens] is [prompt_tokens + completion_tokens],
    [prompt_tokens] is the length of the first row of the input ids given
    to the model, [completion_tokens] is the length of the first output
    row minus that, and so [total_tokens] is the length of the first
    output row. *)
Theorem usage_total_tokens request st resp st' log :
  generate request st = (inr resp, st', log) ->
  exists mdl inputs cfg outputs input_ids0 outputs0 w1 w2 p c t,
    model st = Some mdl
    /\ model_generate mdl inputs cfg w1 = (inr outputs, w2)
    /\ head (input_ids inputs) = Some input_ids0
    /\ head outputs = Some outputs0
    /\ usage resp !! "prompt_tokens"%string = Some p
    /\ usage resp !! "completion_tokens"%string = Some c
    /\ usage resp !! "total_tokens"%string = Some t
    /\ p = Z.of_nat (length input_ids0)
    /\ c = (Z.of_nat (length outputs0) - Z.of_nat (length input_ids0))%Z
    /\ t = (p + c)%Z
    /\ t = Z.of_nat (length outputs0).
Proof.
  intros H. apply generate_inr in H as (mdl & tok & Hm & Ht & H).
  apply generate_try_inr in H
    as (inputs & cfg & outputs & in0 & out0 & generated
        & w1 & w2 & w3 & w4 & Hg & Hi & Ho & Hd & ->).
  exists mdl, inputs, cfg, outputs, in0, out0, w1, w2.
  eexists _, _, _. cbn [usage]. unfold usage_dict.
  repeat (split; [eassumption || reflexivity|]). lia.
Qed.

Lemma replace_nonempty s old new :
  old <> [] -> replace s old new = replace_scan old new 0 s.
Proof. intros H. destruct old; [congruence|reflexivity]. Qed.

(** C6 (amended): in every successful response the content is trimmed,
    and one left-to-right pass has deleted the end markers it met, however
    many: the text left after the prompt cut is a [join] around
    ["<|im_end|>"] of pieces that are each free of it, and the content is
    the pieces put together, stripped.  (The pass does not look again at
    its result.) *)
Theorem content_markers_deleted request st resp st' log :
  generate request st = (inr resp, st', log) ->
  exists tok outputs0 generated w3 w4 pieces,
    tokenizer st = Some tok
    /\ tokenizer_decode tok outputs0 false w3 = (inr generated, w4)
    /\ (let prompt := format_messages (messages request) in
        if contains prompt generated
        then slice_from (length prompt) generated
        else generated) = join (py "<|im_end|>") pieces
    /\ Forall (fun p => contains (py "<|im_end|>") p = false) pieces
    /\ resp_content resp = strip (concat pieces)
    /\ leading_space (resp_content resp) = false
    /\ trailing_space (resp_content resp) = false.
Proof.
  intros H. apply generate_inr in H as (mdl & tok & Hm & Ht & H).
  apply generate_try_inr in H
    as (inputs & cfg & outputs & in0 & out0 & generated
        & w1 & w2 & w3 & w4 & Hg & Hi & Ho & Hd & ->).
  cbn [resp_content]. unfold response_text.
  set (text := if contains _ generated then _ else _).
  assert (Hne : py "<|im_end|>" <> []) by discriminate.
  destruct (replace_scan_pieces (py "<|im_end|>") text Hne)
    as (pieces & Hj & Hf & Hr).
  exists tok, out0, generated, w3, w4, pieces.
  rewrite replace_nonempty, Hr by assumption.
  repeat split; try assumption.
  - apply strip_no_leading_space.
  - apply strip_no_trailing_space.
Qed.

(** C9 (amended): with both handles populated, an instance of [Exception]
    that the [try] block raises comes out as [HTTPException(500, str(e))],
    with the state and the calls made up to the exception; this holds for
    the exception of any library call of the run (tokenizing, moving the
    inputs, building the configuration, generating, decoding); the status
    is the one of "Model not loaded".  An exception of a library call that
    is not an instance of [Exception] is not caught: it leaves the handler
    as it is.  The handler ends in a response, in such an [HTTPException]
    or in such an escaping exception. *)
Theorem generate_exception_500 request st mdl tok :
  model st = Some mdl -> tokenizer st = Some tok ->
  model_bool mdl = true -> tokenizer_bool tok = true ->
  forall r st' log,
    generate request st = (r, st', log) ->
    (forall e st1 log1,
        generate_try mdl tok request st = (inl e, st1, log1) ->
        exn_is_Exception e = true ->
        r = inl (HTTP {| status_code := 500; detail := exn_str e |})
        /\ st' = st1 /\ log = log1)
    /\ (forall c e,
           In c log -> call_raised c = Some e ->
           exn_is_Exception e = true ->
           r = inl (HTTP {| status_code := 500; detail := exn_str e |}))
    /\ (forall h,
           r = inl (HTTP h) -> status_code h = status_code model_not_loaded)
    /\ (forall c e,
           In c log -> call_raised c = Some e ->
           exn_is_Exception e = false ->
           r = inl (Escaped e))
    /\ ((exists resp, r = inr resp)
        \/ (exists e,
               exn_is_Exception e = true
               /\ r = inl (HTTP {| status_code := 500; detail := exn_str e |}))
        \/ (exists e, exn_is_Exception e = false /\ r = inl (Escaped e))).
Proof.
  intros Hm Ht Hbm Hbt r st' log H.
  rewrite (generate_loaded _ _ mdl tok) in H by assumption.
  destruct (generate_try mdl tok request st) as [[[e|resp] st1] log1] eqn:E.
  - assert (Hlog : forall c e', In c log1 -> call_raised c = Some e' -> e' = e).
    { intros c e' Hin Hc.
      pose proof (generate_try_raised _ _ _ _ _ _ _ E c e' Hin Hc).
      congruence. }
    destruct (exn_is_Exception e) eqn:X; injection H as <- <- <-.
    + split; [intros e0 s0 l0 [= <- <- <-] _; auto|].
      split; [intros c e' Hin Hc _; now rewrite (Hlog c e' Hin Hc)|].
      split; [intros h [= <-]; reflexivity|].
      split; [intros c e' Hin Hc X'; rewrite (Hlog c e' Hin Hc) in X';
              congruence|].
      right; left. now exists e.
    + split; [intros e0 s0 l0 [= <- <- <-] X'; congruence|].
      split; [intros c e' Hin Hc X'; rewrite (Hlog c e' Hin Hc) in X';
              congruence|].
      split; [intros h [=]|].
      split; [intros c e' Hin Hc _; now rewrite (Hlog c e' Hin Hc)|].
      right; right. now exists e.
  - injection H as <- <- <-.
    split; [intros e0 s0 l0 [=]|].
    split; [intros c e' Hin Hc;
            pose proof (generate_try_raised _ _ _ _ _ _ _ E c e' Hin Hc);
            discriminate|].
    split; [intros h [=]|].
    split; [intros c e' Hin Hc;
            pose proof (generate_try_raised _ _ _ _ _ _ _ E c e' Hin Hc);
            discriminate|].
    left. now exists resp.
Qed.
End Handler.

(** C1 at an output that contains the prompt without starting with it: a
    tokenizer that shows a beginning-of-text token in front of what it
    decodes.  The handler cuts the first [len(prompt)] characters of the
    output all the same, which removes the token and most of the prompt and
    leaves the prompt's tail in the content; the specification's answer is
    the whole output without its end markers, stripped. *)
Theorem prompt_inside_output_is_cut :
  let RT := demo_runtime false false (fun _ => true)
              (py "Hello<|im_end|>") (py "<|endoftext|>") in
  let prompt := format_messages (messages (hi_request None)) in
  let generated := py "<|endoftext|>" ++ prompt ++ py "Hello<|im_end|>" in
  startswith prompt generated = false
  /\ contains prompt generated = true
  /\ (exists resp st' log,
         @generate unit RT (hi_request None) (@loaded unit RT tt tt tt)
         = (inr resp, st', log)
         /\ In (Build_Call (Ev_decode (map Z.of_N (prompt ++ py "Hello<|im_end|>"))
                              false) None) log
         /\ resp_content resp = py "t|>assistant" ++ nl ++ py "Hello")
  /\ strip (replace generated (py "<|im_end|>") [])
     = py "<|endoftext|><|im_start|>user" ++ nl ++ py "Hi" ++ nl
       ++ py "<|im_start|>assistant" ++ nl ++ py "Hello".
Proof.
  intros RT prompt generated.
  split; [vm_compute; reflexivity|].
  split; [vm_compute; reflexivity|].
  split; [|vm_compute; reflexivity].
  destruct (@generate unit RT (hi_request None) (@loaded unit RT tt tt tt))
    as [[[h|resp] st'] log] eqn:E; vm_compute in E; [discriminate|].
  injection E as <- <- <-.
  eexists _, _, _. split; [reflexivity|].
  split; [vm_compute; auto|vm_compute; reflexivity].
Qed.

(** ** The model loader *)

Section Loader.
Context {F : Type} {RT : Runtime F}.

(** C4 (amended): in a run of [load_model] whose first model fetch raised
    an instance of [Exception], what follows that fetch is exactly one more
    model fetch, for the same model, without quantization, in [float32],
    with [offload_state_dict=True] and the folder ["offload"] under the
    cache directory; if that fetch raises, [load_model] raises the same
    exception, and otherwise it returns.  When the first model fetch raised
    an exception that is not an instance of [Exception], nothing follows
    it: there is no retry and [load_model] raises that exception. *)
Theorem load_model_retries_once model_name st r st' log first rest e :
  load_model model_name st = (r, st', log) ->
  after_first_model_fetch log = Some (first, rest) ->
  call_raised first = Some e ->
  (exn_is_Exception e = true ->
   exists a outcome,
     rest = [Build_Call (Ev_model_from_pretrained a) outcome]
     /\ fetch_name (call_event first) = Some (ma_name a)
     /\ ma_quantization_config a = None
     /\ ma_torch_dtype a = float32
     /\ ma_offload_state_dict a = Some true
     /\ ma_cache_dir a = expanduser (py "~/.woocode/models")
     /\ ma_offload_folder a
        = Some (path_join (expanduser (py "~/.woocode/models")) (py "offload"))
     /\ match outcome with
        | Some e' => r = inl e'
        | None => exists v, r = inr v
        end)
  /\ (exn_is_Exception e = false -> rest = [] /\ r = inl e).
Proof.
  unfold load_model, select_device, load_try, load_except, try_except,
    bind, call, get, set_model, set_tokenizer, raise, ret.
  intros H.
  destruct cuda_is_available eqn:Ecuda; run_load H;
    injection H as <- <- <-; intros Hfirst Hraised;
    cbn in Hfirst; try discriminate Hfirst;
    injection Hfirst as <- <-; cbn in Hraised; try discriminate Hraised;
    injection Hraised as <-.
  all: split; intros X; try congruence.
  all: try (split; reflexivity).
  all: eexists _, _; split; [reflexivity|].
  all: cbn; repeat split; eauto.
Qed.

(** C5: every fetch of the tokenizer or of the model that [load_model]
    makes asks for ["Qwen/Qwen2.5-Coder-7B-Instruct"] when there is no
    accelerator and the requested name contains ["30B"] or ["32B"], and for
    the requested name when there is an accelerator or the name contains
    neither; a run that returns has fetched both. *)
Theorem load_model_resolved_name model_name st r st' log :
  load_model model_name st = (r, st', log) ->
  (cuda_is_available = false ->
   contains (py "30B") model_name = true
   \/ contains (py "32B") model_name = true ->
   forall c n,
     In c log -> fetch_name (call_event c) = Some n ->
     n = py "Qwen/Qwen2.5-Coder-7B-Instruct")
  /\ (cuda_is_available = true
      \/ (contains (py "30B") model_name = false
          /\ contains (py "32B") model_name = false) ->
      forall c n,
        In c log -> fetch_name (call_event c) = Some n -> n = model_name)
  /\ (forall v, r = inr v ->
      (exists a, In (Build_Call (Ev_tokenizer_from_pretrained a) None) log)
      /\ (exists a, In (Build_Call (Ev_model_from_pretrained a) None) log)).
Proof.
  unfold load_model, select_device, load_try, load_except, try_except,
    bind, call, get, set_model, set_tokenizer, raise, ret.
  intros H.
  destruct cuda_is_available eqn:Ecuda; run_load H;
    injection H as <- <- <-.
  all: split; [|split].
  all: try (intros v Hv; try discriminate Hv; split; eexists; cbn; eauto 10).
  all: try (intros Hc; try discriminate Hc).
  all: try (intros Hs c n Hin Hn).
  all: try (intros c n Hin Hn).
  all: cbn in Hin.
  all: repeat (destruct Hin as [<-|Hin];
               [cbn in Hn; try discriminate Hn|]); try destruct Hin.
  all: try (destruct Hs as [Hs|Hs]; rewrite Hs, ?orb_true_r in Hn;
            cbn in Hn; congruence).
  all: try congruence.
  all: destruct Hc as [Hc|[Hc1 Hc2]]; [discriminate Hc|].
  all: rewrite Hc1, Hc2 in Hn; cbn in Hn; congruence.
Qed.
End Loader.

(** ** The theorems at concrete runs *)

(** C3 on the small runtime: a request before the model is loaded. *)
Lemma generate_model_not_loaded_witness :
  let RT := demo_runtime false false (fun _ => true) [] [] in
  @generate unit RT (hi_request None) (@not_loaded unit RT tt)
  = (inl (HTTP {| status_code := 500; detail := py "Model not loaded" |}),
     @not_loaded unit RT tt, []).
Proof.
  intros RT. apply (@generate_model_not_loaded unit RT).
  left. reflexivity.
Defined.

(** C8 on the small runtime: [stream: true] against [stream: false]. *)
Lemma generate_ignores_stream_witness :
  let RT := demo_runtime false false (fun _ => true) (py "Hello") [] in
  @generate unit RT (hi_request (Some true)) (@loaded unit RT tt tt tt)
  = @generate unit RT (hi_request (Some false)) (@loaded unit RT tt tt tt).
Proof.
  intros RT. apply (@generate_ignores_stream unit RT); reflexivity.
Defined.

(** C7 on the small runtime: 52 prompt tokens, 5 completion tokens. *)
Lemma usage_total_tokens_witness :
  let RT := demo_runtime false false (fun _ => true) (py "Hello") [] in
  exists resp st' log,
    @generate unit RT (hi_request None) (@loaded unit RT tt tt tt)
    = (inr resp, st', log)
    /\ exists p c t,
         usage resp !! "prompt_tokens"%string = Some p
         /\ usage resp !! "completion_tokens"%string = Some c
         /\ usage resp !! "total_tokens"%string = Some t
         /\ t = (p + c)%Z.
Proof.
  intros RT.
  destruct (@generate unit RT (hi_request None) (@loaded unit RT tt tt tt))
    as [[[h|resp] st'] log] eqn:E; [vm_compute in E; discriminate|].
  exists resp, st', log. split; [reflexivity|].
  destruct (@usage_total_tokens unit RT _ _ _ _ _ E)
    as (mdl & inputs & cfg & outputs & in0 & out0 & w1 & w2 & p & c & t
        & _ & _ & _ & _ & Hp & Hc & Ht & _ & _ & Hsum & _).
  exists p, c, t. repeat split; assumption.
Defined.

(** C6 on the small runtime: two end markers in the output. *)
Lemma content_markers_deleted_witness :
  let RT := demo_runtime false false (fun _ => true)
              (py " a<|im_end|>b<|im_end|> ") [] in
  exists resp st' log,
    @generate unit RT (hi_request None) (@loaded unit RT tt tt tt)
    = (inr resp, st', log)
    /\ leading_space (resp_content resp) = false
    /\ trailing_space (resp_content resp) = false.
Proof.
  intros RT.
  destruct (@generate unit RT (hi_request None) (@loaded unit RT tt tt tt))
    as [[[h|resp] st'] log] eqn:E; [vm_compute in E; discriminate|].
  exists resp, st', log. split; [reflexivity|].
  destruct (@content_markers_deleted unit RT _ _ _ _ _ E)
    as (tok & out0 & generated & w3 & w4 & pieces
        & _ & _ & _ & _ & _ & Hl & Ht).
  split; assumption.
Defined.

(** C6 as stated fails: the output [<|im_<|im_end|>end|>] leaves, after the
    one pass, the content [<|im_end|>]. *)
Lemma content_marker_reformed :
  ~ (forall (RT : Runtime unit) (request : GenerateRequest unit)
       (st : State) resp st' log,
        generate request st = (inr resp, st', log) ->
        contains (py "<|im_end|>") (resp_content resp) = false
        /\ leading_space (resp_content resp) = false
        /\ trailing_space (resp_content resp) = false).
Proof.
  intros H.
  pose (RT := demo_runtime false false (fun _ => true)
                (py "<|im_<|im_end|>end|>") []).
  destruct (@generate unit RT (hi_request None) (@loaded unit RT tt tt tt))
    as [[[h|resp] st'] log] eqn:E; [vm_compute in E; discriminate|].
  destruct (H RT _ _ _ _ _ E) as [Hc _].
  vm_compute in E. injection E as <- _ _.
  vm_compute in Hc. discriminate.
Qed.

Lemma generate_exception_500_witness :
  let RT := failing_generate_runtime in
  exists st' log,
    @generate unit RT (hi_request None) (@loaded unit RT tt tt tt)
    = (inl (HTTP {| status_code := 500; detail := py "CUDA out of memory" |}),
       st', log).
Proof.
  intros RT.
  destruct (@generate unit RT (hi_request None) (@loaded unit RT tt tt tt))
    as [[r st'] log] eqn:E.
  exists st', log. f_equal. f_equal.
  destruct (@generate_exception_500 unit RT (hi_request None)
              (@loaded unit RT tt tt tt) tt tt
              eq_refl eq_refl eq_refl eq_refl r st' log E)
    as (_ & Hlog & _).
  vm_compute in E. injection E as <- <- <-.
  apply (Hlog (Build_Call
                 (Ev_generate
                    {| max_new_tokens := Some 1%Z; gc_temperature := None;
                       gc_top_p := None; gc_top_k := Some 40%Z;
                       do_sample := true; gc_pad_token_id := None;
                       gc_eos_token_id := None |})
                 (Some {| exn_class := Exception;
                          exn_str := py "CUDA out of memory" |}))
           {| exn_class := Exception;
              exn_str := py "CUDA out of memory" |}).
  - right. right. left. reflexivity.
  - reflexivity.
  - reflexivity.
Defined.

(** C9 as stated fails: a [KeyboardInterrupt] out of [model.generate] is
    not an instance of [Exception]; it is not answered by a 500 but leaves
    the handler. *)
Lemma generate_interrupt_escapes :
  ~ (forall (RT : Runtime unit) (request : GenerateRequest unit)
       (st : State) mdl tok,
        model st = Some mdl -> tokenizer st = Some tok ->
        model_bool mdl = true -> tokenizer_bool tok = true ->
        forall r st' log,
          generate request st = (r, st', log) ->
          forall c e,
            In c log -> call_raised c = Some e ->
            r = inl (HTTP {| status_code := 500; detail := exn_str e |})).
Proof.
  intros H.
  pose (RT := interrupted_runtime false false true).
  destruct (@generate unit RT (hi_request None) (@loaded unit RT tt tt tt))
    as [[r st'] log] eqn:E.
  specialize (H RT (hi_request None) (@loaded unit RT tt tt tt) tt tt
                eq_refl eq_refl eq_refl eq_refl r st' log E).
  vm_compute in E. injection E as <- <- <-.
  specialize (H (Build_Call
                   (Ev_generate
                      {| max_new_tokens := Some 1%Z; gc_temperature := None;
                         gc_top_p := None; gc_top_k := Some 40%Z;
                         do_sample := true; gc_pad_token_id := None;
                         gc_eos_token_id := None |})
                   (Some keyboard_interrupt))
                keyboard_interrupt
                ltac:(right; right; left; reflexivity) eq_refl).
  discriminate H.
Qed.

(** C4 on the small runtime, on a hub where only the fetch with offloading
    succeeds: the first fetch raises, the second is the last call. *)
Lemma load_model_retries_once_witness :
  let RT := demo_runtime false false needs_offload [] [] in
  exists r st' log first rest e,
    @load_model unit RT (py "Qwen/Qwen3-Coder-30B-A3B-Instruct")
      (@not_loaded unit RT tt) = (r, st', log)
    /\ after_first_model_fetch log = Some (first, rest)
    /\ call_raised first = Some e
    /\ exn_is_Exception e = true
    /\ length rest = 1
    /\ exists v, r = inr v.
Proof.
  intros RT.
  destruct (@load_model unit RT (py "Qwen/Qwen3-Coder-30B-A3B-Instruct")
              (@not_loaded unit RT tt)) as [[r st'] log] eqn:E.
  pose proof E as E2. vm_compute in E2. injection E2 as <- <- <-.
  eexists _, _, _, _, _, _.
  split; [reflexivity|]. split; [reflexivity|]. split; [reflexivity|].
  split; [reflexivity|].
  destruct (proj1 (@load_model_retries_once unit RT _ _ _ _ _ _ _ _ E
                     eq_refl eq_refl) eq_refl)
    as (a & outcome & Hrest & _ & _ & _ & _ & _ & _ & Hout).
  injection Hrest as <- <-. split; [reflexivity|]. exact Hout.
Defined.

(** C4 as stated fails: a first model fetch interrupted by the user
    ([KeyboardInterrupt], not an instance of [Exception]) is not tried
    again. *)
Lemma load_model_interrupt_not_retried :
  ~ (forall (RT : Runtime unit) model_name (st : State) r st' log
       first rest e,
        load_model model_name st = (r, st', log) ->
        after_first_model_fetch log = Some (first, rest) ->
        call_raised first = Some e ->
        exists a outcome,
          rest = [Build_Call (Ev_model_from_pretrained a) outcome]).
Proof.
  intros H.
  pose (RT := interrupted_runtime true false false).
  destruct (@load_model unit RT (py "Qwen/Qwen2.5-Coder-7B-Instruct")
              (@not_loaded unit RT tt)) as [[r st'] log] eqn:E.
  pose proof E as E2. vm_compute in E2. injection E2 as <- <- <-.
  destruct (H RT _ _ _ _ _ _ _ _ E eq_refl eq_refl)
    as (a & outcome & Hrest).
  discriminate Hrest.
Qed.

(** C5 on the small runtime without accelerator: the 30B name is replaced,
    a 7B name is kept. *)
Lemma load_model_resolved_name_witness :
  let RT := demo_runtime false false (fun _ => true) [] [] in
  (exists r st' log a,
      @load_model unit RT (py "Qwen/Qwen3-Coder-30B-A3B-Instruct")
        (@not_loaded unit RT tt) = (r, st', log)
      /\ In (Build_Call (Ev_tokenizer_from_pretrained a) None) log
      /\ ta_name a = py "Qwen/Qwen2.5-Coder-7B-Instruct")
  /\ (exists r st' log a,
         @load_model unit RT (py "Qwen/Qwen2.5-Coder-1.5B-Instruct")
           (@not_loaded unit RT tt) = (r, st', log)
         /\ In (Build_Call (Ev_model_from_pretrained a) None) log
         /\ ma_name a = py "Qwen/Qwen2.5-Coder-1.5B-Instruct").
Proof.
  intros RT. split.
  - destruct (@load_model unit RT (py "Qwen/Qwen3-Coder-30B-A3B-Instruct")
                (@not_loaded unit RT tt)) as [[r st'] log] eqn:E.
    destruct (@load_model_resolved_name unit RT _ _ _ _ _ E)
      as (Hsmall & _ & Hfetch).
    assert (Hr : exists v, r = inr v)
      by (vm_compute in E; injection E as <- _ _; eexists; reflexivity).
    destruct Hr as [v Hv]. destruct (Hfetch v Hv) as [[a Ha] _].
    exists r, st', log, a. split; [reflexivity|]. split; [exact Ha|].
    apply (Hsmall eq_refl (or_introl eq_refl) _ _ Ha). reflexivity.
  - destruct (@load_model unit RT (py "Qwen/Qwen2.5-Coder-1.5B-Instruct")
                (@not_loaded unit RT tt)) as [[r st'] log] eqn:E.
    destruct (@load_model_resolved_name unit RT _ _ _ _ _ E)
      as (_ & Hsame & Hfetch).
    assert (Hr : exists v, r = inr v)
      by (vm_compute in E; injection E as <- _ _; eexists; reflexivity).
    destruct Hr as [v Hv]. destruct (Hfetch v Hv) as [_ [a Ha]].
    exists r, st', log, a. split; [reflexivity|]. split; [exact Ha|].
    apply (Hsame (or_intror (conj eq_refl eq_refl)) _ _ Ha). reflexivity.
Defined.

(** ** More on the string operations *)

Section MarkerFacts.
Implicit Types (c x y s : pystr).

Lemma contains_cons_false sub a s :
  contains sub (a :: s) = false ->
  startswith sub (a :: s) = false /\ contains sub s = false.
Proof. simpl. intros H. apply orb_false_iff in H. exact H. Qed.

(** An end marker cannot begin inside a non-empty text free of it and run
    into a marker that follows: [<] is only the marker's first character. *)
Lemma im_end_no_straddle c y :
  c <> [] -> contains (py "<|im_end|>") c = false ->
  startswith (py "<|im_end|>") (c ++ py "<|im_end|>" ++ y) = false.
Proof.
  intros Hne Hfree.
  destruct (startswith _ (c ++ _)) eqn:H; [exfalso|reflexivity].
  apply startswith_prefix in H as [t Ht].
  change (py "<|im_end|>") with [60; 124; 105; 109; 95; 101; 110; 100; 124; 62]%N in *.
  do 10 (destruct c as [|? c]; [try congruence; simplify_eq/=|]).
  simplify_eq/=.
Qed.

(** The first end marker of a text is at one place only. *)
Lemma im_end_split_unique c1 c2 x y :
  contains (py "<|im_end|>") c1 = false ->
  contains (py "<|im_end|>") c2 = false ->
  c1 ++ py "<|im_end|>" ++ x = c2 ++ py "<|im_end|>" ++ y ->
  c1 = c2 /\ x = y.
Proof.
  revert c2. induction c1 as [|a c1 IH]; intros [|b c2] H1 H2 H.
  - rewrite !app_nil_l in H. apply app_inv_head in H. now split.
  - exfalso. pose proof (im_end_no_straddle (b :: c2) y) as Hs.
    rewrite <- H, app_nil_l, startswith_app in Hs.
    discriminate Hs; [discriminate|assumption].
  - exfalso. pose proof (im_end_no_straddle (a :: c1) x) as Hs.
    rewrite H, app_nil_l, startswith_app in Hs.
    discriminate Hs; [discriminate|assumption].
  - rewrite <- !app_comm_cons in H. injection H as -> H.
    apply contains_cons_false in H1 as [_ H1].
    apply contains_cons_false in H2 as [_ H2].
    destruct (IH c2 H1 H2 H) as [-> ->]. now split.
Qed.

Lemma replace_scan_free old c :
  contains old c = false -> replace_scan old [] 0 c = c.
Proof.
  induction c as [|a c IH]; intros H; [reflexivity|].
  apply contains_cons_false in H as [Hs Hc].
  rewrite replace_scan_miss by assumption. now rewrite IH.
Qed.

Lemma replace_scan_free_then_marker c :
  contains (py "<|im_end|>") c = false ->
  replace_scan (py "<|im_end|>") [] 0 (c ++ py "<|im_end|>") = c.
Proof.
  induction c as [|a c IH]; intros H.
  - reflexivity.
  - pose proof (im_end_no_straddle (a :: c) []) as Hs.
    rewrite app_nil_r in Hs. specialize (Hs ltac:(discriminate) H).
    apply contains_cons_false in H as [_ Hc].
    rewrite <- app_comm_cons in *.
    rewrite replace_scan_miss by assumption. now rewrite IH.
Qed.

(** X1: when the decoded output is the prompt followed by a completion
    that holds no end marker, with or without one closing end marker after
    it, the content is the completion, stripped. *)
Theorem response_text_echo prompt completion :
  contains (py "<|im_end|>") completion = false ->
  response_text prompt (prompt ++ completion) = strip completion
  /\ response_text prompt (prompt ++ completion ++ py "<|im_end|>")
     = strip completion.
Proof.
  intros H. unfold response_text, slice_from.
  rewrite !(contains_startswith _ _ (startswith_app prompt _)).
  rewrite !drop_app_length.
  rewrite !replace_nonempty by discriminate.
  rewrite replace_scan_free by assumption.
  rewrite replace_scan_free_then_marker by assumption.
  now split.
Qed.

Lemma response_text_echo_witness :
  response_text (format_messages (messages (hi_request None)))
    (format_messages (messages (hi_request None)) ++ py " Hello! " ++ py "<|im_end|>")
  = py "Hello!".
Proof.
  refine (eq_trans
            (proj2 (response_text_echo
                      (format_messages (messages (hi_request None)))
                      (py " Hello! ") _)) _);
    reflexivity.
Defined.

Lemma drop_while_sublist f s : drop_while f s `sublist_of` s.
Proof.
  induction s as [|a s IH]; simpl; [constructor|].
  destruct (f a); [now apply sublist_cons|reflexivity].
Qed.

Lemma strip_sublist s : strip s `sublist_of` s.
Proof.
  unfold strip. destruct (rstrip_prefix (lstrip s)) as [w Hw].
  transitivity (lstrip s).
  - rewrite Hw at 2. apply sublist_inserts_r. reflexivity.
  - apply drop_while_sublist.
Qed.

Lemma replace_scan_sublist old k s : replace_scan old [] k s `sublist_of` s.
Proof.
  revert k. induction s as [|a s IH]; intros k; [destruct k; constructor|].
  destruct k as [|k]; cbn [replace_scan].
  - destruct (startswith old (a :: s)).
    + simpl. apply sublist_cons, IH.
    + apply sublist_skip, IH.
  - apply sublist_cons, IH.
Qed.

Lemma response_text_sublist prompt generated :
  response_text prompt generated `sublist_of` generated.
Proof.
  unfold response_text, slice_from.
  etransitivity; [apply strip_sublist|].
  rewrite replace_nonempty by discriminate.
  etransitivity; [apply replace_scan_sublist|].
  destruct (contains prompt generated); [apply sublist_drop|reflexivity].
Qed.
End MarkerFacts.

(** ** More on the prompt formatter *)

Section FormatterMore.
Implicit Types (m : Message) (msgs : list Message).

(** X2: rendering is incremental: the prompt of a conversation is a text
    followed by the open assistant marker, and the prompt of the
    conversation with more messages after it is that text followed by the
    prompt of the added messages. *)
Theorem format_messages_app msgs :
  exists pre,
    format_messages msgs = pre ++ py "<|im_start|>assistant" ++ nl
    /\ forall more, format_messages (msgs ++ more) = pre ++ format_messages more.
Proof.
  exists (fold_left format_step msgs []). split; [reflexivity|].
  intros more. unfold format_messages.
  rewrite fold_left_app.
  rewrite (fold_format_step more (fold_left format_step msgs [])).
  rewrite (fold_format_step more []), app_nil_l, <- !app_assoc.
  reflexivity.
Qed.

Lemma render_block_not_nil m : render_block m <> [].
Proof. unfold render_block. discriminate. Qed.

Lemma filter_nil_forall {A} (f : A -> bool) (l : list A) :
  List.filter f l = [] <-> Forall (fun x => f x = false) l.
Proof.
  induction l as [|a l IH]; simpl.
  - split; constructor.
  - destruct (f a) eqn:E; split; intros H.
    + discriminate.
    + inversion H; congruence.
    + constructor; [assumption|now apply IH].
    + inversion H; now apply IH.
Qed.

(** X3: the prompt is the open assistant marker alone exactly when no
    message has a recognized role (the empty conversation included). *)
Theorem format_messages_only_marker msgs :
  format_messages msgs = py "<|im_start|>assistant" ++ nl
  <-> Forall (fun m => recognized (role m) = false) msgs.
Proof.
  rewrite format_messages_blocks, <- filter_nil_forall.
  split.
  - intros H.
    assert (Hc : concat (map render_block
                    (List.filter (fun m => recognized (role m)) msgs)) = []).
    { apply (app_inv_tail open_assistant). exact H. }
    destruct (List.filter _ msgs) as [|m l]; [reflexivity|].
    cbn [map concat] in Hc. apply app_eq_nil in Hc as [Hc _].
    now apply render_block_not_nil in Hc.
  - intros ->. reflexivity.
Qed.

Lemma filter_all {A} (f : A -> bool) (l : list A) :
  Forall (fun x => f x = true) l -> List.filter f l = l.
Proof.
  induction 1 as [|a l Ha _ IH]; simpl; [reflexivity|].
  now rewrite Ha, IH.
Qed.

Lemma recognized_cases r :
  recognized r = true ->
  r = py "system" \/ r = py "user" \/ r = py "assistant".
Proof.
  unfold recognized. intros H.
  apply orb_true_iff in H as [H|H]; [apply orb_true_iff in H as [H|H]|];
    apply bool_decide_eq_true in H; auto.
Qed.

(** A block and what follows it determine the message, when the content
    holds no end marker. *)
Lemma render_block_inj m1 m2 x y :
  recognized (role m1) = true -> recognized (role m2) = true ->
  contains (py "<|im_end|>") (content m1) = false ->
  contains (py "<|im_end|>") (content m2) = false ->
  render_block m1 ++ x = render_block m2 ++ y ->
  m1 = m2 /\ x = y.
Proof.
  destruct m1 as [r1 c1], m2 as [r2 c2]. unfold render_block.
  cbn [role content]. intros Hr1 Hr2 H1 H2 H.
  rewrite <- !app_assoc in H. apply app_inv_head in H.
  assert (Hr : r1 = r2).
  { apply recognized_cases in Hr1 as [-> | [-> | ->]];
      apply recognized_cases in Hr2 as [-> | [-> | ->]];
      try reflexivity; exfalso; vm_compute in H; discriminate H. }
  subst r2. apply app_inv_head in H.
  unfold nl in H at 1 3. rewrite <- !app_comm_cons, !app_nil_l in H.
  injection H as H.
  apply im_end_split_unique in H as [-> H]; [|assumption..].
  split; [reflexivity|]. congruence.
Qed.

Lemma format_messages_cons m msgs :
  recognized (role m) = true ->
  format_messages (m :: msgs) = render_block m ++ format_messages msgs.
Proof.
  intros H. unfold format_messages. cbn [fold_left].
  rewrite format_step_recognized, app_nil_l by assumption.
  rewrite (fold_format_step msgs (render_block m)).
  rewrite (fold_format_step msgs []), app_nil_l, <- !app_assoc.
  reflexivity.
Qed.

Lemma block_has_marker m x :
  contains (py "<|im_end|>") (render_block m ++ x) = true.
Proof.
  apply contains_infix.
  exists (py "<|im_start|>" ++ role m ++ nl ++ content m), (nl ++ x).
  unfold render_block. rewrite <- !app_assoc. reflexivity.
Qed.

(** X4: two conversations of messages with recognized roles and contents
    free of the end marker have the same prompt only if they are the same
    conversation. *)
Theorem format_messages_injective msgs1 msgs2 :
  Forall (fun m => recognized (role m) = true
                   /\ contains (py "<|im_end|>") (content m) = false) msgs1 ->
  Forall (fun m => recognized (role m) = true
                   /\ contains (py "<|im_end|>") (content m) = false) msgs2 ->
  format_messages msgs1 = format_messages msgs2 ->
  msgs1 = msgs2.
Proof.
  intros H1. revert msgs2. induction H1 as [|m1 l1 [Hr1 Hc1] Hl1 IH];
    intros msgs2 H2; destruct H2 as [|m2 l2 [Hr2 Hc2] Hl2]; intros H.
  - reflexivity.
  - exfalso. rewrite format_messages_cons in H by assumption.
    pose proof (block_has_marker m2 (format_messages l2)) as Hm.
    rewrite <- H in Hm. vm_compute in Hm. discriminate Hm.
  - exfalso. rewrite format_messages_cons in H by assumption.
    pose proof (block_has_marker m1 (format_messages l1)) as Hm.
    rewrite H in Hm. vm_compute in Hm. discriminate Hm.
  - rewrite !format_messages_cons in H by assumption.
    apply render_block_inj in H as [-> H]; [|assumption..].
    f_equal. now apply IH.
Qed.

Lemma format_messages_injective_witness :
  [ {| role := py "user"; content := py "Hi" |};
    {| role := py "assistant"; content := py "Hello" |} ]
  = [ {| role := py "user"; content := py "Hi" |};
      {| role := py "assistant"; content := py "Hello" |} ].
Proof.
  apply format_messages_injective;
    [repeat (constructor; [split; reflexivity|]); constructor ..
    |reflexivity].
Defined.

Lemma format_messages_only_marker_witness :
  format_messages [ {| role := py "tool"; content := py "x" |} ]
  = py "<|im_start|>assistant" ++ nl.
Proof.
  apply (proj2 (format_messages_only_marker
                  [ {| role := py "tool"; content := py "x" |} ])).
  constructor; [reflexivity|constructor].
Defined.
End FormatterMore.

(** ** More on the generation handler *)

Section HandlerMore.
Context {F : Type} {RT : Runtime F}.
Implicit Types (request : GenerateRequest F) (st : State).

Lemma generate_cases request st :
  (generate request st = (inl (HTTP model_not_loaded), st, [])
   /\ (model st = None \/ tokenizer st = None
       \/ exists mdl tok, model st = Some mdl /\ tokenizer st = Some tok
            /\ (model_bool mdl = false \/ tokenizer_bool tok = false)))
  \/ (exists mdl tok,
         model st = Some mdl /\ tokenizer st = Some tok
         /\ model_bool mdl = true /\ tokenizer_bool tok = true
         /\ generate request st
            = match generate_try mdl tok request st with
              | (inr r, st', log) => (inr r, st', log)
              | (inl e, st', log) =>
                  if exn_is_Exception e
                  then (inl (HTTP {| status_code := 500;
                                     detail := exn_str e |}), st', log)
                  else (inl (Escaped e), st', log)
              end).
Proof.
  destruct (model st) as [mdl|] eqn:Hm.
  2: { left. split; [apply generate_none; now left|now left]. }
  destruct (tokenizer st) as [tok|] eqn:Ht.
  2: { left. split; [apply generate_none; now right|right; now left]. }
  destruct (model_bool mdl) eqn:Hbm.
  2: { left. split; [apply (generate_falsy _ _ mdl tok); auto|].
       right; right. exists mdl, tok. auto. }
  destruct (tokenizer_bool tok) eqn:Hbt.
  2: { left. split; [apply (generate_falsy _ _ mdl tok); auto|].
       right; right. exists mdl, tok. auto. }
  right. exists mdl, tok. split; [reflexivity|]. split; [reflexivity|].
  split; [assumption|]. split; [assumption|].
  now apply generate_loaded.
Qed.

Lemma generate_try_state mdl tok request st r st' log :
  generate_try mdl tok request st = (r, st', log) ->
  model st' = model st /\ tokenizer st' = tokenizer st.
Proof.
  unfold generate_try, bind, call, index0, raise, ret. intros H.
  run_in H; injection H as <- <- <-; split; reflexivity.
Qed.

(** X5: a request never changes the two handles: whatever the handler
    answers, the model and the tokenizer of the process are those it
    started with. *)
Theorem generate_keeps_handles request st r st' log :
  generate request st = (r, st', log) ->
  model st' = model st /\ tokenizer st' = tokenizer st.
Proof.
  intros H.
  destruct (generate_cases request st)
    as [[E _]|(mdl & tok & _ & _ & _ & _ & E)]; rewrite E in H.
  - injection H as <- <- <-. now split.
  - destruct (generate_try mdl tok request st) as [[[e|resp] st1] log1] eqn:Et;
      [destruct (exn_is_Exception e)|];
      injection H as <- <- <-; eapply generate_try_state; eassumption.
Qed.

(** X6: the content of a successful response is made of characters of the
    decoded output, in their order: nothing is added, replaced or moved, and
    the content is never longer than the output. *)
Theorem content_from_output request st resp st' log :
  generate request st = (inr resp, st', log) ->
  exists tok outputs0 generated w3 w4,
    tokenizer st = Some tok
    /\ tokenizer_decode tok outputs0 false w3 = (inr generated, w4)
    /\ resp_content resp `sublist_of` generated
    /\ length (resp_content resp) <= length generated.
Proof.
  intros H. apply generate_inr in H as (mdl & tok & Hm & Ht & H).
  apply generate_try_inr in H
    as (inputs & cfg & outputs & in0 & out0 & generated
        & w1 & w2 & w3 & w4 & Hg & Hi & Ho & Hd & ->).
  exists tok, out0, generated, w3, w4. cbn [resp_content].
  repeat split; try assumption.
  - apply response_text_sublist.
  - apply sublist_length, response_text_sublist.
Qed.

Lemma generate_try_success_log mdl tok request st resp st' log :
  generate_try mdl tok request st = (inr resp, st', log) ->
  exists outputs0,
    let cfg :=
      {| max_new_tokens := max_tokens request;
         gc_temperature := temperature request;
         gc_top_p := top_p request;
         gc_top_k := top_k request;
         do_sample := true;
         gc_pad_token_id := pad_token_id tok;
         gc_eos_token_id := eos_token_id tok |} in
    log = Build_Call (Ev_tokenize (format_messages (messages request)) 32768) None
          :: (if cuda_is_available
              then [Build_Call (Ev_inputs_to (py "cuda")) None] else [])
          ++ [ Build_Call (Ev_generation_config cfg) None;
               Build_Call (Ev_generate cfg) None;
               Build_Call (Ev_decode outputs0 false) None ].
Proof.
  unfold generate_try, bind, call, index0, raise, ret. intros H.
  run_in H; injection H as <- <- <-; eexists; reflexivity.
Qed.

(** X7: a successful request made these library calls and no other, each
    once and in this order: the tokenizer on the rendered prompt with
    truncation at 32768 tokens, the move of the inputs to the accelerator
    when there is one, the generation configuration, one generation, one
    decoding with the special tokens kept.  The configuration carries
    [max_tokens], [temperature], [top_p] and [top_k] of the request as they
    are, sampling on, and the pad and end tokens of the tokenizer. *)
Theorem generate_success_calls request st resp st' log :
  generate request st = (inr resp, st', log) ->
  exists tok outputs0,
    tokenizer st = Some tok
    /\ let cfg :=
         {| max_new_tokens := max_tokens request;
            gc_temperature := temperature request;
            gc_top_p := top_p request;
            gc_top_k := top_k request;
            do_sample := true;
            gc_pad_token_id := pad_token_id tok;
            gc_eos_token_id := eos_token_id tok |} in
       log = Build_Call (Ev_tokenize (format_messages (messages request)) 32768)
               None
             :: (if cuda_is_available
                 then [Build_Call (Ev_inputs_to (py "cuda")) None] else [])
             ++ [ Build_Call (Ev_generation_config cfg) None;
                  Build_Call (Ev_generate cfg) None;
                  Build_Call (Ev_decode outputs0 false) None ].
Proof.
  intros H. apply generate_inr in H as (mdl & tok & Hm & Ht & H).
  apply generate_try_success_log in H as [out0 H].
  exists tok, out0. split; assumption.
Qed.

Lemma generate_try_counts mdl tok request st r st' log :
  generate_try mdl tok request st = (r, st', log) ->
  count_calls is_tokenize log = 1
  /\ count_calls is_generate log <= 1
  /\ count_calls is_decode log <= 1.
Proof.
  unfold generate_try, bind, call, index0, raise, ret. intros H.
  run_in H; injection H as <- <- <-.
  all: unfold count_calls; cbn.
  all: split; [reflexivity|]; split; lia.
Qed.

Lemma generate_try_first_call mdl tok request st r st' log :
  generate_try mdl tok request st = (r, st', log) ->
  exists c rest,
    log = c :: rest
    /\ call_event c = Ev_tokenize (format_messages (messages request)) 32768.
Proof.
  unfold generate_try, bind, call, index0, raise, ret. intros H.
  run_in H; injection H as <- <- <-; eexists _, _; split; reflexivity.
Qed.

Lemma generate_try_decode_after mdl tok request st r st' log :
  generate_try mdl tok request st = (r, st', log) ->
  forall c, In c log -> is_decode (call_event c) = true ->
  exists g, In g log /\ is_generate (call_event g) = true
            /\ call_raised g = None.
Proof.
  unfold generate_try, bind, call, index0, raise, ret. intros H.
  run_in H; injection H as <- <- <-.
  all: intros c Hin Hd; cbn in Hin.
  all: repeat (destruct Hin as [<-|Hin]; [try discriminate Hd|]);
    try (destruct Hin).
  all: match goal with
       | E : model_generate _ _ ?cfg _ = _ |- _ =>
           exists (Build_Call (Ev_generate cfg) None)
       end.
  all: split; [cbn; auto 10|split; reflexivity].
Qed.

Lemma generate_try_index_error mdl tok request st e st' log :
  generate_try mdl tok request st = (inl e, st', log) ->
  Forall (fun c => call_raised c = None) log ->
  e = index_error.
Proof.
  unfold generate_try, bind, call, index0, raise, ret. intros H.
  run_in H; try discriminate H; injection H as <- <- <-; intros HF;
    try reflexivity.
  all: exfalso;
    repeat (let Hx := fresh "Hx" in
            apply Forall_cons in HF as [Hx HF]; cbn in Hx;
            try discriminate Hx).
Qed.

(** X8: a request calls the tokenizer at most once, the generation at most
    once and the decoding at most once, whatever happens (nothing is tried
    again), and it decodes only after a generation that returned. *)
Theorem generate_no_retry request st r st' log :
  generate request st = (r, st', log) ->
  count_calls is_tokenize log <= 1
  /\ count_calls is_generate log <= 1
  /\ count_calls is_decode log <= 1
  /\ (forall c, In c log -> is_decode (call_event c) = true ->
      exists g, In g log /\ is_generate (call_event g) = true
                /\ call_raised g = None).
Proof.
  intros H.
  destruct (generate_cases request st)
    as [[E _]|(mdl & tok & _ & _ & _ & _ & E)]; rewrite E in H.
  - injection H as <- <- <-. unfold count_calls. cbn.
    repeat split; try lia; try (intros c []).
  - destruct (generate_try mdl tok request st) as [[[e|resp] st1] log1] eqn:Et;
      [destruct (exn_is_Exception e)|];
      injection H as <- <- <-;
      destruct (generate_try_counts _ _ _ _ _ _ _ Et) as (H1 & H2 & H3);
      pose proof (generate_try_decode_after _ _ _ _ _ _ _ Et) as H4;
      repeat split; try assumption; lia.
Qed.

(** X9: a failed request in whose run no library call raised is either
    the "Model not loaded" answer, with no call made, or the [IndexError]
    of an empty batch ([outputs[0]] or [input_ids[0]]), answered as a 500
    with its text. *)
Theorem generate_failure_without_raise request st h st' log :
  generate request st = (inl h, st', log) ->
  Forall (fun c => call_raised c = None) log ->
  (h = HTTP {| status_code := 500; detail := py "Model not loaded" |}
   /\ log = [])
  \/ (h = HTTP {| status_code := 500; detail := exn_str index_error |}
      /\ log <> []).
Proof.
  intros H HF.
  destruct (generate_cases request st)
    as [[E _]|(mdl & tok & _ & _ & _ & _ & E)]; rewrite E in H.
  - injection H as <- <- <-. left. now split.
  - destruct (generate_try mdl tok request st) as [[[e|resp] st1] log1] eqn:Et;
      [|discriminate H].
    assert (e = index_error) as ->.
    { apply (generate_try_index_error _ _ _ _ _ _ _ Et).
      destruct (exn_is_Exception e); injection H as _ _ <-; exact HF. }
    cbn in H. injection H as <- <- <-. right.
    destruct (generate_try_counts _ _ _ _ _ _ _ Et) as (H1 & _ & _).
    split; [reflexivity|].
    intros ->. discriminate H1.
Qed.

(** X10: a handle that is populated but whose truth value is false (a
    tokenizer of length zero, for instance) is taken for a missing one: the
    answer is "Model not loaded" and no library call is made. *)
Theorem generate_falsy_handle request st mdl tok :
  model st = Some mdl -> tokenizer st = Some tok ->
  model_bool mdl = false \/ tokenizer_bool tok = false ->
  generate request st
  = (inl (HTTP {| status_code := 500; detail := py "Model not loaded" |}),
     st, []).
Proof. apply generate_falsy. Qed.
End HandlerMore.

(** ** More on the model loader *)

Section LoaderMore.
Context {F : Type} {RT : Runtime F}.


(** Every fetch of a run asks for one model name, trusts remote code and
    caches under the same directory. *)
Lemma load_model_fetches model_name st r st' log :
  load_model model_name st = (r, st', log) ->
  forall c x,
    In c log -> fetch_settings (call_event c) = Some x ->
    x = (if cuda_is_available then model_name
         else if contains (py "30B") model_name || contains (py "32B") model_name
              then py "Qwen/Qwen2.5-Coder-7B-Instruct" else model_name,
         true, expanduser (py "~/.woocode/models")).
Proof.
  intros H c x Hin Hx. load_cases H; cbn in Hin.
  all: repeat (destruct Hin as [<-|Hin];
               [cbn in Hx; try discriminate Hx; congruence|]).
  all: destruct Hin.
Qed.

Lemma load_model_first_call model_name st r st' log :
  load_model model_name st = (r, st', log) ->
  exists c rest,
    log = c :: rest
    /\ call_event c = Ev_makedirs (expanduser (py "~/.woocode/models")).
Proof.
  intros H. load_cases H; eexists _, _; split; reflexivity.
Qed.

(** X12: in one run of [load_model] the tokenizer and the model are
    fetched under one name, which is the requested one or the 7B fallback,
    always with [trust_remote_code=True] and with the directory
    [~/.woocode/models] as cache; and the first call of the run creates
    that directory. *)
Theorem load_model_fetch_settings model_name st r st' log :
  load_model model_name st = (r, st', log) ->
  (exists n,
      (n = model_name \/ n = py "Qwen/Qwen2.5-Coder-7B-Instruct")
      /\ forall c x,
           In c log -> fetch_settings (call_event c) = Some x ->
           x = (n, true, expanduser (py "~/.woocode/models")))
  /\ exists c rest,
       log = c :: rest
       /\ call_event c = Ev_makedirs (expanduser (py "~/.woocode/models")).
Proof.
  intros H. split; [|eapply load_model_first_call; eassumption].
  eexists. split; [|apply (load_model_fetches _ _ _ _ _ H)].
  destruct cuda_is_available; [now left|].
  destruct (contains _ _ || contains _ _); [now right|now left].
Qed.

(** X13: when the fetch of the tokenizer raises, [load_model] raises that
    exception without fetching a model, and leaves both handles as they
    were. *)
Theorem load_model_tokenizer_failure model_name st r st' log a e :
  load_model model_name st = (r, st', log) ->
  In (Build_Call (Ev_tokenizer_from_pretrained a) (Some e)) log ->
  r = inl e
  /\ after_first_model_fetch log = None
  /\ model st' = model st /\ tokenizer st' = tokenizer st.
Proof.
  intros H Hin. load_cases H; cbn in Hin.
  all: repeat (destruct Hin as [Heq|Hin];
               [try discriminate Heq;
                injection Heq as <- <-; repeat split; reflexivity|]).
  all: destruct Hin.
Qed.

Lemma load_model_returns_handles model_name st v st' log :
  load_model model_name st = (inr v, st', log) ->
  exists mdl tok,
    v = (Some mdl, Some tok)
    /\ model st' = Some mdl /\ tokenizer st' = Some tok.
Proof.
  intros H. load_cases H.
  all: eexists _, _; repeat split; reflexivity.
Qed.

(** X14: a run of [load_model] that returns has set both handles, to the
    pair it returns. *)
Theorem load_model_populates model_name st v st' log :
  load_model model_name st = (inr v, st', log) ->
  exists mdl tok,
    v = (Some mdl, Some tok)
    /\ model st' = Some mdl /\ tokenizer st' = Some tok.
Proof. apply load_model_returns_handles. Qed.


(** X16: the model is moved only when there is no accelerator, to ["cpu"],
    and at most once.  When the move returns it is the last call and
    [load_model] returns; when it raises an instance of [Exception],
    exactly one model fetch follows, the one with offloading in [float32],
    and its outcome is the outcome of [load_model]; when it raises an
    exception that is not an instance of [Exception], nothing follows and
    [load_model] raises that exception. *)
Theorem load_model_move model_name st r st' log c rest :
  load_model model_name st = (r, st', log) ->
  after_first is_model_to log = Some (c, rest) ->
  cuda_is_available = false
  /\ call_event c = Ev_model_to (py "cpu")
  /\ match call_raised c with
     | None => rest = [] /\ exists v, r = inr v
     | Some e =>
         if exn_is_Exception e then
           exists a outcome,
             rest = [Build_Call (Ev_model_from_pretrained a) outcome]
             /\ ma_offload_state_dict a = Some true
             /\ ma_torch_dtype a = float32
             /\ match outcome with
                | Some e' => r = inl e'
                | None => exists v, r = inr v
                end
         else rest = [] /\ r = inl e
     end.
Proof.
  intros H Hmove. load_cases H; cbn in Hmove; try discriminate Hmove.
  all: injection Hmove as <- <-; split; [reflexivity|].
  all: split; [reflexivity|]; cbn [call_raised].
  all: try match goal with
           | E : exn_is_Exception ?e = _ |- context [exn_is_Exception ?e] =>
               rewrite E
           end.
  all: try (split; [reflexivity|]; solve [reflexivity | eexists; reflexivity]).
  all: eexists _, _; split; [reflexivity|]; cbn; repeat split; eauto.
Qed.
End LoaderMore.

(** ** The start of the server and the catalog *)

Section StartupFacts.
Context {F : Type} {RT : Runtime F}.

Lemma startup_event_run environ st :
  startup_event environ st
  = match load_model
            (environ_get environ "QWEN_MODEL"
               (py "Qwen/Qwen3-Coder-30B-A3B-Instruct")) st with
    | (inl e, st', log) => (inl e, st', log)
    | (inr _, st', log) => (inr tt, st', log)
    end.
Proof.
  unfold startup_event, bind at 1.
  destruct (load_model _ st) as [[[e|v] st'] log]; [reflexivity|].
  unfold ret. now rewrite app_nil_r.
Qed.

(** X17: at startup the model named by [QWEN_MODEL] is loaded, and the
    start fails exactly when that load raises, with the same exception.
    With [QWEN_MODEL] unset the name is the 30B default, so that every
    fetch asks for it on a machine with an accelerator and for the 7B
    model on a machine without. *)
Theorem startup_event_loads environ st r st' log :
  startup_event environ st = (r, st', log) ->
  (forall v,
      environ !! "QWEN_MODEL"%string = Some v ->
      exists r0,
        load_model v st = (r0, st', log)
        /\ forall e, r = inl e <-> r0 = inl e)
  /\ (environ !! "QWEN_MODEL"%string = None ->
      forall c n,
        In c log -> fetch_name (call_event c) = Some n ->
        n = if cuda_is_available
            then py "Qwen/Qwen3-Coder-30B-A3B-Instruct"
            else py "Qwen/Qwen2.5-Coder-7B-Instruct").
Proof.
  rewrite startup_event_run. unfold environ_get. intros H. split.
  - intros v Hv. rewrite Hv in H.
    destruct (load_model v st) as [[[e|x] s] l]; injection H as <- <- <-;
      eexists; (split; [reflexivity|]); intros e'; split; congruence.
  - intros Hn c n Hin Hf. rewrite Hn in H.
    destruct (load_model _ st) as [[r0 s] l] eqn:E.
    assert (l = log) as -> by (destruct r0; congruence).
    destruct (call_event c) eqn:Ec; try discriminate Hf.
    + pose proof (load_model_fetches _ _ _ _ _ E c _ Hin
                    ltac:(rewrite Ec; reflexivity)) as Hx.
      injection Hf as <-. injection Hx as Hx _ _. rewrite Hx.
      destruct cuda_is_available; reflexivity.
    + pose proof (load_model_fetches _ _ _ _ _ E c _ Hin
                    ltac:(rewrite Ec; reflexivity)) as Hx.
      injection Hf as <-. injection Hx as Hx _ _. rewrite Hx.
      destruct cuda_is_available; reflexivity.
Qed.

Lemma list_models_entries :
  list_models !! "models"%string
  = Some [ catalog_entry (py "Qwen/Qwen3-Coder-30B-A3B-Instruct")
             (py "Qwen3-Coder 30B A3B")
             (py "Advanced coding model with 30B parameters");
           catalog_entry (py "Qwen/Qwen2.5-Coder-32B-Instruct")
             (py "Qwen2.5-Coder 32B")
             (py "Latest Qwen2.5 coding model");
           catalog_entry (py "Qwen/Qwen2.5-Coder-7B-Instruct")
             (py "Qwen2.5-Coder 7B")
             (py "Smaller, faster Qwen2.5 model") ].
Proof. unfold list_models. apply lookup_insert_eq. Qed.

Lemma catalog_entry_id id name description :
  catalog_entry id name description !! "id"%string = Some id.
Proof.
  unfold catalog_entry.
  rewrite !lookup_insert_ne by discriminate. apply lookup_insert_eq.
Qed.

Lemma catalog_ids entries :
  list_models !! "models"%string = Some entries ->
  map (fun entry : gmap string pystr => entry !! "id"%string) entries
  = [ Some (py "Qwen/Qwen3-Coder-30B-A3B-Instruct");
      Some (py "Qwen/Qwen2.5-Coder-32B-Instruct");
      Some (py "Qwen/Qwen2.5-Coder-7B-Instruct") ].
Proof.
  rewrite list_models_entries. intros [= <-]. cbn [map].
  now rewrite !catalog_entry_id.
Qed.

(** X18: the catalog of [GET /models] is closed under what [load_model]
    fetches: loading any identifier of the catalog only fetches
    identifiers of the catalog, on every machine. *)
Theorem list_models_closed entries entry id st r st' log :
  list_models !! "models"%string = Some entries ->
  In entry entries -> entry !! "id"%string = Some id ->
  load_model id st = (r, st', log) ->
  forall c n,
    In c log -> fetch_name (call_event c) = Some n ->
    exists entry', In entry' entries /\ entry' !! "id"%string = Some n.
Proof.
  intros Hm Hin Hid H c n Hc Hf.
  assert (Hn : n = if cuda_is_available then id
                   else if contains (py "30B") id || contains (py "32B") id
                        then py "Qwen/Qwen2.5-Coder-7B-Instruct" else id).
  { destruct (call_event c) eqn:Ec; try discriminate Hf;
      pose proof (load_model_fetches _ _ _ _ _ H c _ Hc
                    ltac:(rewrite Ec; reflexivity)) as Hx;
      injection Hf as <-; injection Hx as Hx _ _; exact Hx. }
  pose proof (catalog_ids _ Hm) as Hids.
  assert (Hi : In (Some id)
                 (map (fun entry : gmap string pystr => entry !! "id"%string)
                    entries)).
  { rewrite <- Hid. now apply in_map. }
  assert (Hr : In (Some n)
                 (map (fun entry : gmap string pystr => entry !! "id"%string)
                    entries)).
  { rewrite Hids in *. subst n.
    destruct cuda_is_available; [exact Hi|].
    destruct Hi as [[= <-]|[[= <-]|[[= <-]|[]]]];
      [right; right; left|right; right; left|right; right; left];
      reflexivity. }
  apply in_map_iff in Hr as (entry' & He & Hin'). now exists entry'.
Qed.

(** X19: after a run of [load_model] that returned, a request is not
    refused as "Model not loaded" (the handles being true objects): it
    goes to the tokenizer, once, with the rendered prompt. *)
Theorem load_then_generate model_name st v st1 log1 request r st2 log2 :
  load_model model_name st = (inr v, st1, log1) ->
  (forall mdl, model st1 = Some mdl -> model_bool mdl = true) ->
  (forall tok, tokenizer st1 = Some tok -> tokenizer_bool tok = true) ->
  generate request st1 = (r, st2, log2) ->
  exists c rest,
    log2 = c :: rest
    /\ call_event c = Ev_tokenize (format_messages (messages request)) 32768
    /\ count_calls is_tokenize log2 = 1.
Proof.
  intros Hl Hbm Hbt Hg.
  destruct (load_model_returns_handles _ _ _ _ _ Hl) as (mdl & tok & _ & Hm & Ht).
  rewrite (generate_loaded _ _ mdl tok) in Hg by auto.
  destruct (generate_try mdl tok request st1) as [[x s] l] eqn:E.
  assert (l = log2) as ->
    by (destruct x as [e|]; [destruct (exn_is_Exception e)|]; congruence).
  destruct (generate_try_counts _ _ _ _ _ _ _ E) as (Hc & _ & _).
  destruct (generate_try_first_call _ _ _ _ _ _ _ E) as (c & rest & -> & Hev).
  now exists c, rest.
Qed.
End StartupFacts.

(** ** The further theorems at concrete runs *)

Lemma generate_keeps_handles_witness :
  let RT := lab_runtime (plain_lab (py "Hello")) in
  exists r st' log,
    @generate unit RT (hi_request None) (@loaded unit RT tt tt tt)
    = (r, st', log)
    /\ model st' = Some tt /\ tokenizer st' = Some tt.
Proof.
  intros RT.
  destruct (@generate unit RT (hi_request None) (@loaded unit RT tt tt tt))
    as [[r st'] log] eqn:E.
  exists r, st', log. split; [reflexivity|].
  exact (@generate_keeps_handles unit RT _ _ _ _ _ E).
Defined.

Lemma content_from_output_witness :
  let RT := lab_runtime (plain_lab (py " Hello<|im_end|>")) in
  exists resp st' log generated,
    @generate unit RT (hi_request None) (@loaded unit RT tt tt tt)
    = (inr resp, st', log)
    /\ resp_content resp `sublist_of` generated
    /\ length (resp_content resp) <= length generated.
Proof.
  intros RT.
  destruct (@generate unit RT (hi_request None) (@loaded unit RT tt tt tt))
    as [[[h|resp] st'] log] eqn:E; [vm_compute in E; discriminate|].
  destruct (@content_from_output unit RT _ _ _ _ _ E)
    as (tok & out0 & generated & w3 & w4 & _ & _ & Hs & Hl).
  exists resp, st', log, generated. split; [reflexivity|]. split; assumption.
Defined.

Lemma generate_success_calls_witness :
  let RT := lab_runtime (plain_lab (py "Hello")) in
  exists resp st' log,
    @generate unit RT (hi_request None) (@loaded unit RT tt tt tt)
    = (inr resp, st', log)
    /\ length log = 4.
Proof.
  intros RT.
  destruct (@generate unit RT (hi_request None) (@loaded unit RT tt tt tt))
    as [[[h|resp] st'] log] eqn:E; [vm_compute in E; discriminate|].
  destruct (@generate_success_calls unit RT _ _ _ _ _ E)
    as (tok & out0 & _ & Hlog).
  exists resp, st', log. split; [reflexivity|].
  cbv zeta in Hlog. rewrite Hlog. reflexivity.
Defined.

Lemma generate_no_retry_witness :
  let RT := lab_runtime (plain_lab (py "Hello")) in
  exists r st' log,
    @generate unit RT (hi_request None) (@loaded unit RT tt tt tt)
    = (r, st', log)
    /\ count_calls is_generate log <= 1.
Proof.
  intros RT.
  destruct (@generate unit RT (hi_request None) (@loaded unit RT tt tt tt))
    as [[r st'] log] eqn:E.
  exists r, st', log. split; [reflexivity|].
  exact (proj1 (proj2 (@generate_no_retry unit RT _ _ _ _ _ E))).
Defined.

(** A model that returns an empty batch. *)
Lemma generate_failure_without_raise_witness :
  let RT := lab_runtime
              {| lab_cuda := false; lab_bnb := false;
                 lab_tokenizer_fetch_ok := true; lab_fetch_ok := fun _ => true;
                 lab_to_ok := true; lab_tokenizer_truth := true;
                 lab_outputs := fun _ => []; lab_decode := map Z.to_N |} in
  exists st' log,
    @generate unit RT (hi_request None) (@loaded unit RT tt tt tt)
    = (inl (HTTP {| status_code := 500;
                    detail := py "index 0 is out of bounds" |}),
       st', log).
Proof.
  intros RT.
  destruct (@generate unit RT (hi_request None) (@loaded unit RT tt tt tt))
    as [[[h|resp] st'] log] eqn:E; [|vm_compute in E; discriminate].
  exists st', log.
  assert (HF : Forall (fun c : Call unit => call_raised c = None) log).
  { pose proof E as E2. vm_compute in E2. injection E2 as _ _ <-.
    repeat constructor. }
  destruct (@generate_failure_without_raise unit RT _ _ _ _ _ E HF)
    as [[_ Hnil]|[-> _]]; [|reflexivity].
  exfalso. subst log. vm_compute in E. discriminate E.
Defined.

(** A tokenizer whose truth value is false. *)
Lemma generate_falsy_handle_witness :
  let RT := lab_runtime
              {| lab_cuda := false; lab_bnb := false;
                 lab_tokenizer_fetch_ok := true; lab_fetch_ok := fun _ => true;
                 lab_to_ok := true; lab_tokenizer_truth := false;
                 lab_outputs := fun x => x; lab_decode := map Z.to_N |} in
  @generate unit RT (hi_request None) (@loaded unit RT tt tt tt)
  = (inl (HTTP {| status_code := 500; detail := py "Model not loaded" |}),
     @loaded unit RT tt tt tt, []).
Proof.
  intros RT.
  apply (@generate_falsy_handle unit RT (hi_request None)
           (@loaded unit RT tt tt tt) tt tt eq_refl eq_refl).
  right. reflexivity.
Defined.


Lemma load_model_fetch_settings_witness :
  let RT := lab_runtime (plain_lab []) in
  exists r st' log n,
    @load_model unit RT (py "Qwen/Qwen2.5-Coder-32B-Instruct")
      (@not_loaded unit RT tt) = (r, st', log)
    /\ forall c x,
         In c log -> fetch_settings (call_event c) = Some x ->
         x = (n, true, py "/home/user/.woocode/models").
Proof.
  intros RT.
  destruct (@load_model unit RT (py "Qwen/Qwen2.5-Coder-32B-Instruct")
              (@not_loaded unit RT tt)) as [[r st'] log] eqn:E.
  destruct (@load_model_fetch_settings unit RT _ _ _ _ _ E)
    as [(n & _ & Hn) _].
  exists r, st', log, n. split; [reflexivity|]. exact Hn.
Defined.

(** A hub without the tokenizer. *)
Lemma load_model_tokenizer_failure_witness :
  let RT := lab_runtime
              {| lab_cuda := false; lab_bnb := false;
                 lab_tokenizer_fetch_ok := false; lab_fetch_ok := fun _ => true;
                 lab_to_ok := true; lab_tokenizer_truth := true;
                 lab_outputs := fun x => x; lab_decode := map Z.to_N |} in
  exists r st' log,
    @load_model unit RT (py "Qwen/Qwen2.5-Coder-7B-Instruct")
      (@not_loaded unit RT tt) = (r, st', log)
    /\ r = inl (lab_error (py "tokenizer not found"))
    /\ after_first_model_fetch log = None
    /\ model st' = None /\ tokenizer st' = None.
Proof.
  intros RT.
  destruct (@load_model unit RT (py "Qwen/Qwen2.5-Coder-7B-Instruct")
              (@not_loaded unit RT tt)) as [[r st'] log] eqn:E.
  exists r, st', log. split; [reflexivity|].
  apply (@load_model_tokenizer_failure unit RT _ _ _ _ _
           {| ta_name := py "Qwen/Qwen2.5-Coder-7B-Instruct";
              ta_trust_remote_code := true;
              ta_cache_dir := py "/home/user/.woocode/models" |}
           (lab_error (py "tokenizer not found")) E).
  pose proof E as E2. vm_compute in E2. injection E2 as _ _ <-.
  right. left. reflexivity.
Defined.

Lemma load_model_populates_witness :
  let RT := lab_runtime (plain_lab []) in
  exists v st' log,
    @load_model unit RT (py "Qwen/Qwen2.5-Coder-7B-Instruct")
      (@not_loaded unit RT tt) = (inr v, st', log)
    /\ model st' = Some tt /\ tokenizer st' = Some tt.
Proof.
  intros RT.
  destruct (@load_model unit RT (py "Qwen/Qwen2.5-Coder-7B-Instruct")
              (@not_loaded unit RT tt)) as [[[e|v] st'] log] eqn:E;
    [vm_compute in E; discriminate|].
  destruct (@load_model_populates unit RT _ _ _ _ _ E)
    as ([] & [] & _ & Hm & Ht).
  exists v, st', log. split; [reflexivity|]. split; assumption.
Defined.


(** A machine on which the model cannot be moved. *)
Lemma load_model_move_witness :
  let RT := lab_runtime
              {| lab_cuda := false; lab_bnb := false;
                 lab_tokenizer_fetch_ok := true; lab_fetch_ok := fun _ => true;
                 lab_to_ok := false; lab_tokenizer_truth := true;
                 lab_outputs := fun x => x; lab_decode := map Z.to_N |} in
  exists r st' log c rest,
    @load_model unit RT (py "Qwen/Qwen2.5-Coder-7B-Instruct")
      (@not_loaded unit RT tt) = (r, st', log)
    /\ after_first is_model_to log = Some (c, rest)
    /\ call_event c = Ev_model_to (py "cpu")
    /\ length rest = 1.
Proof.
  intros RT.
  destruct (@load_model unit RT (py "Qwen/Qwen2.5-Coder-7B-Instruct")
              (@not_loaded unit RT tt)) as [[r st'] log] eqn:E.
  pose proof E as E2. vm_compute in E2. injection E2 as <- <- <-.
  destruct (@load_model_move unit RT _ _ _ _ _ _ _ E eq_refl)
    as (_ & Hc & a & outcome & Hrest & _).
  eexists _, _, _, _, _.
  split; [reflexivity|]. split; [reflexivity|]. split; [exact Hc|].
  rewrite Hrest. reflexivity.
Defined.

Lemma startup_event_loads_witness :
  let RT := lab_runtime (plain_lab []) in
  exists r st' log,
    @startup_event unit RT ∅ (@not_loaded unit RT tt) = (r, st', log)
    /\ forall c n,
         In c log -> fetch_name (call_event c) = Some n ->
         n = py "Qwen/Qwen2.5-Coder-7B-Instruct".
Proof.
  intros RT.
  destruct (@startup_event unit RT ∅ (@not_loaded unit RT tt))
    as [[r st'] log] eqn:E.
  exists r, st', log. split; [reflexivity|].
  exact (proj2 (@startup_event_loads unit RT _ _ _ _ _ E) (lookup_empty _)).
Defined.

Lemma list_models_closed_witness :
  let RT := lab_runtime (plain_lab []) in
  exists r st' log,
    @load_model unit RT (py "Qwen/Qwen2.5-Coder-32B-Instruct")
      (@not_loaded unit RT tt) = (r, st', log)
    /\ forall c n,
         In c log -> fetch_name (call_event c) = Some n ->
         exists entry entries,
           list_models !! "models"%string = Some entries
           /\ In entry entries /\ entry !! "id"%string = Some n.
Proof.
  intros RT.
  destruct (@load_model unit RT (py "Qwen/Qwen2.5-Coder-32B-Instruct")
              (@not_loaded unit RT tt)) as [[r st'] log] eqn:E.
  exists r, st', log. split; [reflexivity|]. intros c n Hc Hn.
  destruct (@list_models_closed unit RT _
              (catalog_entry (py "Qwen/Qwen2.5-Coder-32B-Instruct")
                 (py "Qwen2.5-Coder 32B") (py "Latest Qwen2.5 coding model"))
              (py "Qwen/Qwen2.5-Coder-32B-Instruct") _ _ _ _
              list_models_entries
              (or_intror (or_introl eq_refl))
              (catalog_entry_id _ _ _) E c n Hc Hn)
    as (entry' & Hin & Hid).
  exists entry'. eexists. split; [apply list_models_entries|]. now split.
Defined.

Lemma load_then_generate_witness :
  let RT := lab_runtime (plain_lab (py "Hello")) in
  exists v st1 log1 r st2 log2,
    @load_model unit RT (py "Qwen/Qwen2.5-Coder-7B-Instruct")
      (@not_loaded unit RT tt) = (inr v, st1, log1)
    /\ @generate unit RT (hi_request None) st1 = (r, st2, log2)
    /\ count_calls is_tokenize log2 = 1.
Proof.
  intros RT.
  destruct (@load_model unit RT (py "Qwen/Qwen2.5-Coder-7B-Instruct")
              (@not_loaded unit RT tt)) as [[[e|v] st1] log1] eqn:E;
    [vm_compute in E; discriminate|].
  destruct (@generate unit RT (hi_request None) st1) as [[r st2] log2] eqn:G.
  exists v, st1, log1, r, st2, log2.
  split; [reflexivity|]. split; [exact G|].
  destruct (@load_then_generate unit RT _ _ _ _ _ _ _ _ _ E
              (fun _ _ => eq_refl) (fun _ _ => eq_refl) G)
    as (c & rest & _ & _ & Hcount).
  exact Hcount.
Defined.
